(** * The E2E Testing Agent session client

    A model of the React component [E2ETestingAgent] (App.tsx): its state
    variables, the four asynchronous handlers ([executeTest],
    [handleClarificationResponse], [skipClarification],
    [proceedWithExecution]) and the polling timers of
    [pollExecutionStatus].

    Conventions of the model.
    - Strings are JavaScript strings: sequences of UTF-16 code units.
    - A handler runs to completion as one step; the replies of the
      requests it awaits are arguments of the handler.  The values a
      handler reads from its closure are the state at the time it is
      invoked.
    - A field of a JSON reply is either present with a value of the type
      the TypeScript interfaces declare, or absent ([None], JavaScript's
      [undefined]).
    - [console.log] and [console.error] are not modelled. *)

From stdpp Require Import base numbers list strings.

(** ** JavaScript strings *)

Abbreviation jsstring := (list N).

(** A string literal of the source, as code units. *)
Definition lit (s : string) : jsstring :=
  map Ascii.N_of_ascii (String.list_ascii_of_string s).

(** [!!s] for a string: only the empty string is falsy. *)
Definition truthy (s : jsstring) : bool :=
  match s with
  | [] => false
  | _ :: _ => true
  end.

(** The code units [String.prototype.trim] strips: ECMAScript WhiteSpace
    (TAB, VT, FF, ZWNBSP and the space separators) and LineTerminator
    (LF, CR, LS, PS). *)
Definition isWhiteSpace (c : N) : bool :=
  match c with
  | 0x0009 | 0x000B | 0x000C | 0x0020 | 0x00A0 | 0x1680 | 0x202F
  | 0x205F | 0x3000 | 0xFEFF
  | 0x000A | 0x000D | 0x2028 | 0x2029 => true
  | _ => (0x2000 <=? c) && (c <=? 0x200A)
  end%N.

Fixpoint trimStart (s : jsstring) : jsstring :=
  match s with
  | [] => []
  | c :: rest => if isWhiteSpace c then trimStart rest else s
  end.

Definition trimEnd (s : jsstring) : jsstring := rev (trimStart (rev s)).

Definition trim (s : jsstring) : jsstring := trimEnd (trimStart s).

(** [a || b] where [a] may be [undefined] and is an array otherwise
    (every array is truthy, the empty one too). *)
Definition or_else {A : Type} (a : option A) (b : A) : A :=
  match a with
  | Some x => x
  | None => b
  end.

(** [a || b] where [a] may be [undefined] and is a string otherwise. *)
Definition str_or (a : option jsstring) (b : jsstring) : jsstring :=
  match a with
  | Some s => if truthy s then s else b
  | None => b
  end.

(** Interpolation [${x}] of a value that may be [undefined]. *)
Definition interpolate (x : option jsstring) : jsstring :=
  or_else x (lit "undefined").

(** ** Types of the component *)

Module ClusterConfig.
Record t := mk {
  ip : jsstring;
  username : jsstring;
  password : jsstring;
  url : jsstring
}.
End ClusterConfig.

Module TestSession.
(** [status] is declared as a union of seven literals, but it is
    assigned from replies typed [any]; [sessionId] and [workflows] are
    assigned from reply fields that may be absent. *)
Record t := mk {
  sessionId : option jsstring;
  status : jsstring;
  command : jsstring;
  workflows : option (list jsstring);
  errorMessage : option jsstring
}.
End TestSession.

Module ExecutionStep.
Record t := mk {
  stepId : jsstring;
  workflow : jsstring;
  tddStep : jsstring;
  status : jsstring;
  timestamp : jsstring;
  errorDetails : option jsstring
}.
End ExecutionStep.

Module ClarificationOption.
(** [data] is typed [any] and never read; it is kept as its JSON text. *)
Record t := mk {
  value : jsstring;
  label : jsstring;
  description : option jsstring;
  data : option jsstring
}.
End ClarificationOption.

Module ClarificationQuestion.
Record t := mk {
  type : jsstring;
  message : jsstring;
  options : list ClarificationOption.t;
  workflow_context : jsstring;
  parameter_name : option jsstring
}.
End ClarificationQuestion.

(** The state variables of the component ([useState]). *)
Record State := mkState {
  instruction : jsstring;
  clusterConfig : ClusterConfig.t;
  isExecuting : bool;
  testSession : option TestSession.t;
  executionSteps : list ExecutionStep.t;
  showExamples : bool;
  showClarification : bool;
  clarificationQuestion : option ClarificationQuestion.t;
  selectedOption : jsstring
}.

Definition initialState : State :=
  mkState [] (ClusterConfig.mk [] [] [] []) false None [] false false None [].

Definition exampleInstructions : list jsstring :=
  [ lit "create network hierarchy with area 'TestArea' and building 'TestBuilding'";
    lit "create 3 L3VN for fabric 'TestFabric'";
    lit "add and provision 5 devices to fabric 'ProductionFabric'";
    lit "create fabric 'DemoFabric' with network hierarchy and provision devices";
    lit "login to cluster and verify home page accessibility";
    lit "create L3VN";
    lit "provision devices to existing fabric" ].

(** The state setters. *)
Definition setInstruction (v : jsstring) (s : State) : State :=
  mkState v (clusterConfig s) (isExecuting s) (testSession s)
    (executionSteps s) (showExamples s) (showClarification s)
    (clarificationQuestion s) (selectedOption s).

Definition setClusterConfig (v : ClusterConfig.t) (s : State) : State :=
  mkState (instruction s) v (isExecuting s) (testSession s)
    (executionSteps s) (showExamples s) (showClarification s)
    (clarificationQuestion s) (selectedOption s).

Definition setIsExecuting (v : bool) (s : State) : State :=
  mkState (instruction s) (clusterConfig s) v (testSession s)
    (executionSteps s) (showExamples s) (showClarification s)
    (clarificationQuestion s) (selectedOption s).

Definition setTestSession (v : option TestSession.t) (s : State) : State :=
  mkState (instruction s) (clusterConfig s) (isExecuting s) v
    (executionSteps s) (showExamples s) (showClarification s)
    (clarificationQuestion s) (selectedOption s).

Definition setExecutionSteps (v : list ExecutionStep.t) (s : State) : State :=
  mkState (instruction s) (clusterConfig s) (isExecuting s) (testSession s)
    v (showExamples s) (showClarification s)
    (clarificationQuestion s) (selectedOption s).

Definition setShowExamples (v : bool) (s : State) : State :=
  mkState (instruction s) (clusterConfig s) (isExecuting s) (testSession s)
    (executionSteps s) v (showClarification s)
    (clarificationQuestion s) (selectedOption s).

Definition setShowClarification (v : bool) (s : State) : State :=
  mkState (instruction s) (clusterConfig s) (isExecuting s) (testSession s)
    (executionSteps s) (showExamples s) v
    (clarificationQuestion s) (selectedOption s).

Definition setClarificationQuestion
    (v : option ClarificationQuestion.t) (s : State) : State :=
  mkState (instruction s) (clusterConfig s) (isExecuting s) (testSession s)
    (executionSteps s) (showExamples s) (showClarification s)
    v (selectedOption s).

Definition setSelectedOption (v : jsstring) (s : State) : State :=
  mkState (instruction s) (clusterConfig s) (isExecuting s) (testSession s)
    (executionSteps s) (showExamples s) (showClarification s)
    (clarificationQuestion s) v.

(** ** The HTTP surface *)

(** The five POST requests, with the fields of their JSON bodies. *)
Inductive Request :=
| ParseTestInstructions (prompt url username password : jsstring)
| ProvideClarification (session_id : option jsstring) (type choice : jsstring)
| SkipClarification (session_id : option jsstring)
| ExecuteTestPlan (session_id : option jsstring)
| GetSessionStatus (session_id : option jsstring).

(** The URL each request is posted to. *)
Definition endpoint (r : Request) : jsstring :=
  match r with
  | ParseTestInstructions _ _ _ _ =>
      lit "http://localhost:8000/parse_test_instructions"
  | ProvideClarification _ _ _ =>
      lit "http://localhost:8000/api/v1/provide_clarification"
  | SkipClarification sid =>
      lit "http://localhost:8000/api/v1/session/" ++ interpolate sid
        ++ lit "/skip_clarification"
  | ExecuteTestPlan _ => lit "http://localhost:8000/execute_test_plan"
  | GetSessionStatus _ => lit "http://localhost:8000/get_session_status"
  end.

Module Result.
(** The fields the client reads from a parsed JSON reply. *)
Record t := mk {
  status : option jsstring;
  session_id : option jsstring;
  detected_workflows : option (list jsstring);
  clarification : option ClarificationQuestion.t;
  workflows : option (list jsstring);
  updated_workflows : option (list jsstring);
  error_message : option jsstring;
  steps : option (list ExecutionStep.t)
}.
Definition empty : t := mk None None None None None None None None.
End Result.

(** A value caught by [catch (error)]. *)
Inductive Thrown :=
| ErrorObject (message : jsstring)
| NonError.

(** What a [fetch] followed by [response.json()] can come to. *)
Inductive Reply :=
| Rejected (e : Thrown)
| NotOk (statusText : jsstring)
| OkBadBody (e : Thrown)
| Ok (body : Result.t).

(** [if (!response.ok) throw new Error(`${failure}${statusText}`);
    await response.json()] inside a [try]. *)
Definition await_json (failure : jsstring) (r : Reply) : Thrown + Result.t :=
  match r with
  | Rejected e => inl e
  | NotOk statusText => inl (ErrorObject (failure ++ statusText))
  | OkBadBody e => inl e
  | Ok body => inr body
  end.

(** [error instanceof Error ? error.message : fallback] *)
Definition message_of (error : Thrown) (fallback : jsstring) : jsstring :=
  match error with
  | ErrorObject message => message
  | NonError => fallback
  end.

(** What the component does to the outside. *)
Inductive Effect :=
| Alert (message : jsstring)
| Fetch (request : Request).

(** One call of [pollExecutionStatus]: the values its callbacks close
    over, and which of its two timers are still registered. *)
Record Poller := mkPoller {
  poll_sessionId : option jsstring;
  poll_instruction : jsstring;
  interval_live : bool;
  timeout_pending : bool
}.

(** The period of [setInterval] and the delay of [setTimeout], in ms. *)
Definition POLL_INTERVAL_MS : N := 3000.
Definition POLL_CEILING_MS : N := 600000.

(** The component with its surroundings: the React state, the effects
    performed so far (oldest first) and the timers registered so far. *)
Record World := mkWorld {
  ui : State;
  effects : list Effect;
  timers : list Poller
}.

Definition initialWorld : World := mkWorld initialState [] [].

Definition setState (f : State -> State) (w : World) : World :=
  mkWorld (f (ui w)) (effects w) (timers w).

Definition perform (e : Effect) (w : World) : World :=
  mkWorld (ui w) (effects w ++ [e]) (timers w).

Definition clearInterval (id : nat) (w : World) : World :=
  match timers w !! id with
  | Some p =>
      mkWorld (ui w) (effects w)
        (<[id := mkPoller (poll_sessionId p) (poll_instruction p) false
                   (timeout_pending p)]> (timers w))
  | None => w
  end.

Definition timeout_done (id : nat) (w : World) : World :=
  match timers w !! id with
  | Some p =>
      mkWorld (ui w) (effects w)
        (<[id := mkPoller (poll_sessionId p) (poll_instruction p)
                   (interval_live p) false]> (timers w))
  | None => w
  end.

Notation "w |> f" := (f w) (at level 45, left associativity, only parsing).

(** [x === 'literal'] for a reply field that may be absent. *)
Definition is_literal (x : option jsstring) (s : string) : bool :=
  bool_decide (x = Some (lit s)).

(** [setTestSession(prev => ({...prev!, ...}))].  Both handlers that use
    it return early when there is no session, and a handler runs as one
    step, so [prev] is that session. *)
Definition updateTestSession
    (f : TestSession.t -> TestSession.t) (s : State) : State :=
  setTestSession (f <$> testSession s) s.

(** ** Polling *)

(** [pollExecutionStatus(sessionId)]: registers the interval and the
    timeout; [instruction] is the value the callbacks close over. *)
Definition pollExecutionStatus
    (instruction : jsstring) (sessionId : option jsstring) (w : World) : World :=
  mkWorld (ui w) (effects w)
    (timers w ++ [mkPoller sessionId instruction true true]).

(** The session a successful status reply is turned into. *)
Definition polled_session
    (p : Poller) (status : Result.t) (prev : option TestSession.t)
    : TestSession.t :=
  TestSession.mk
    (poll_sessionId p)
    (str_or (Result.status status) (lit "executing"))
    (poll_instruction p)
    (Some (or_else (Result.workflows status)
             (or_else (prev ≫= TestSession.workflows) [])))
    (Result.error_message status).

(** One run of the interval callback of poller [id]. *)
Definition poll_tick (id : nat) (p : Poller) (reply : Reply) (w : World) : World :=
  let w := w |> perform (Fetch (GetSessionStatus (poll_sessionId p))) in
  match reply with
  | Rejected _ | OkBadBody _ =>
      w |> clearInterval id |> setState (setIsExecuting false)
  | NotOk _ => w
  | Ok status =>
      let w :=
        w |> setState (fun s =>
               setTestSession (Some (polled_session p status (testSession s))) s) in
      if is_literal (Result.status status) "completed"
         || is_literal (Result.status status) "failed"
      then
        let w := w |> clearInterval id |> setState (setIsExecuting false) in
        match Result.steps status with
        | Some steps => w |> setState (setExecutionSteps steps)
        | None => w
        end
      else w
  end.

(** The interval of poller [id] comes due: its callback runs if the
    interval has not been cleared. *)
Definition interval_fires (id : nat) (reply : Reply) (w : World) : World :=
  match timers w !! id with
  | Some p => if interval_live p then poll_tick id p reply w else w
  | None => w
  end.

(** The 10 minute timeout of poller [id] comes due. *)
Definition timeout_fires (id : nat) (w : World) : World :=
  match timers w !! id with
  | Some p =>
      if timeout_pending p
      then w |> timeout_done id |> clearInterval id
             |> setState (setIsExecuting false)
      else w
  | None => w
  end.

(** ** The handlers *)

Definition proceedWithExecution
    (instruction : jsstring) (sessionId : option jsstring)
    (parseResult : Result.t) (executeReply : Reply) (w : World) : World :=
  let w := w |> perform (Fetch (ExecuteTestPlan sessionId)) in
  match await_json (lit "Failed to execute test: ") executeReply with
  | inr _sessionResult =>
      w |> setState (setTestSession (Some (TestSession.mk
             sessionId
             (lit "executing")
             instruction
             (Some (or_else (Result.workflows parseResult)
                      (or_else (Result.updated_workflows parseResult) [])))
             None)))
        |> pollExecutionStatus instruction sessionId
  | inl error =>
      w |> setState (setTestSession (Some (TestSession.mk
             sessionId
             (lit "failed")
             instruction
             (Some [])
             (Some (message_of error (lit "Execution failed"))))))
        |> setState (setIsExecuting false)
  end.

(** The body of the parse request. *)
Definition parse_request (s : State) : Request :=
  let clusterConfig := clusterConfig s in
  ParseTestInstructions
    (instruction s)
    (if truthy (ClusterConfig.url clusterConfig)
     then ClusterConfig.url clusterConfig
     else lit "https://" ++ ClusterConfig.ip clusterConfig)
    (ClusterConfig.username clusterConfig)
    (ClusterConfig.password clusterConfig).

(** The guard of [executeTest]: a required field is missing. *)
Definition missing_required (s : State) : bool :=
  negb (truthy (trim (instruction s)))
  || negb (truthy (ClusterConfig.ip (clusterConfig s)))
  || negb (truthy (ClusterConfig.username (clusterConfig s))).

Definition executeTest (parseReply executeReply : Reply) (w : World) : World :=
  let instruction := instruction (ui w) in
  if missing_required (ui w)
  then w |> perform (Alert (lit "Please fill in all required fields"))
  else
    let request := parse_request (ui w) in
    let w :=
      w |> setState (setIsExecuting true)
        |> setState (setTestSession None)
        |> setState (setExecutionSteps [])
        |> setState (setShowClarification false)
        |> perform (Fetch request) in
    match await_json (lit "Failed to parse instructions: ") parseReply with
    | inr parseResult =>
        if is_literal (Result.status parseResult) "needs_clarification"
        then
          w |> setState (setClarificationQuestion (Result.clarification parseResult))
            |> setState (setShowClarification true)
            |> setState (setTestSession (Some (TestSession.mk
                 (Result.session_id parseResult)
                 (lit "needs_clarification")
                 instruction
                 (Some (or_else (Result.detected_workflows parseResult) []))
                 None)))
            |> setState (setIsExecuting false)
        else
          proceedWithExecution instruction (Result.session_id parseResult)
            parseResult executeReply w
    | inl error =>
        w |> setState (setTestSession (Some (TestSession.mk
               (Some (lit "error"))
               (lit "failed")
               instruction
               (Some [])
               (Some (message_of error (lit "Unknown error occurred"))))))
          |> setState (setIsExecuting false)
    end.

(** The state once the clarification reply has been read, before the test
    plan is executed. *)
Definition clarification_resolved (clarificationResult : Result.t) (w : World) : World :=
  w |> setState (setShowClarification false)
    |> setState (setClarificationQuestion None)
    |> setState (setSelectedOption [])
    |> setState (updateTestSession (fun prev =>
         TestSession.mk (TestSession.sessionId prev) (lit "parsing")
           (TestSession.command prev)
           (Result.updated_workflows clarificationResult)
           (TestSession.errorMessage prev))).

Definition handleClarificationResponse
    (clarificationReply executeReply : Reply) (w : World) : World :=
  match truthy (selectedOption (ui w)), testSession (ui w),
        clarificationQuestion (ui w) with
  | true, Some testSession, Some clarificationQuestion =>
      let instruction := instruction (ui w) in
      let w :=
        w |> setState (setIsExecuting true)
          |> perform (Fetch (ProvideClarification
               (TestSession.sessionId testSession)
               (ClarificationQuestion.type clarificationQuestion)
               (selectedOption (ui w)))) in
      match await_json (lit "Failed to process clarification: ")
              clarificationReply with
      | inr clarificationResult =>
          w |> clarification_resolved clarificationResult
            |> proceedWithExecution instruction
                 (TestSession.sessionId testSession)
                 clarificationResult executeReply
      | inl error =>
          w |> setState (updateTestSession (fun prev =>
                 TestSession.mk (TestSession.sessionId prev) (lit "failed")
                   (TestSession.command prev) (TestSession.workflows prev)
                   (Some (message_of error (lit "Clarification failed")))))
            |> setState (setIsExecuting false)
            |> setState (setShowClarification false)
      end
  | _, _, _ => w |> perform (Alert (lit "Please select an option"))
  end.

(** The state once the skip reply has been read, before the test plan is
    executed. *)
Definition skip_resolved (skipResult : Result.t) (w : World) : World :=
  w |> setState (setShowClarification false)
    |> setState (setClarificationQuestion None)
    |> setState (updateTestSession (fun prev =>
         TestSession.mk (TestSession.sessionId prev) (lit "parsing")
           (TestSession.command prev)
           (Result.workflows skipResult)
           (TestSession.errorMessage prev))).

Definition skipClarification (skipReply executeReply : Reply) (w : World) : World :=
  match testSession (ui w) with
  | None => w
  | Some testSession =>
      let instruction := instruction (ui w) in
      let w :=
        w |> setState (setIsExecuting true)
          |> perform (Fetch (SkipClarification (TestSession.sessionId testSession))) in
      match await_json (lit "Failed to skip clarification: ") skipReply with
      | inr skipResult =>
          w |> skip_resolved skipResult
            |> proceedWithExecution instruction
                 (TestSession.sessionId testSession) skipResult executeReply
      | inl error =>
          w |> setState (updateTestSession (fun prev =>
                 TestSession.mk (TestSession.sessionId prev) (lit "failed")
                   (TestSession.command prev) (TestSession.workflows prev)
                   (Some (message_of error (lit "Skip clarification failed")))))
            |> setState (setIsExecuting false)
            |> setState (setShowClarification false)
      end
  end.

(** ** The component as a transition system *)

(** What can happen to the rendered component: the user acts on an
    enabled control, or a timer comes due.  Clicks that start requests
    carry the replies those requests will get. *)
Inductive Event :=
| InstructionChanged (v : jsstring)
| IpChanged (v : jsstring)
| UrlChanged (v : jsstring)
| UsernameChanged (v : jsstring)
| PasswordChanged (v : jsstring)
| LightbulbClicked
| ExampleClicked (index : nat)
| OptionChosen (index : nat)
| ExecuteClicked (parseReply executeReply : Reply)
| ContinueClicked (clarificationReply executeReply : Reply)
| UseDefaultsClicked (skipReply executeReply : Reply)
| IntervalFired (id : nat) (reply : Reply)
| TimeoutFired (id : nat).

(** [{showClarification && clarificationQuestion && (...)}] *)
Definition dialog_question (s : State) : option ClarificationQuestion.t :=
  if showClarification s then clarificationQuestion s else None.

(** [disabled] of the Execute button. *)
Definition execute_disabled (s : State) : bool :=
  isExecuting s || missing_required s.

Definition step (e : Event) (w : World) : World :=
  let s := ui w in
  let cfg := clusterConfig s in
  match e with
  | InstructionChanged v =>
      if isExecuting s then w else w |> setState (setInstruction v)
  | IpChanged v =>
      if isExecuting s then w else
      w |> setState (setClusterConfig (ClusterConfig.mk v
             (ClusterConfig.username cfg) (ClusterConfig.password cfg)
             (ClusterConfig.url cfg)))
  | UrlChanged v =>
      if isExecuting s then w else
      w |> setState (setClusterConfig (ClusterConfig.mk (ClusterConfig.ip cfg)
             (ClusterConfig.username cfg) (ClusterConfig.password cfg) v))
  | UsernameChanged v =>
      if isExecuting s then w else
      w |> setState (setClusterConfig (ClusterConfig.mk (ClusterConfig.ip cfg)
             v (ClusterConfig.password cfg) (ClusterConfig.url cfg)))
  | PasswordChanged v =>
      if isExecuting s then w else
      w |> setState (setClusterConfig (ClusterConfig.mk (ClusterConfig.ip cfg)
             (ClusterConfig.username cfg) v (ClusterConfig.url cfg)))
  | LightbulbClicked => w |> setState (setShowExamples (negb (showExamples s)))
  | ExampleClicked index =>
      match showExamples s, exampleInstructions !! index with
      | true, Some example =>
          w |> setState (setInstruction example)
            |> setState (setShowExamples false)
      | _, _ => w
      end
  | OptionChosen index =>
      match dialog_question s ≫= (fun q => ClarificationQuestion.options q !! index) with
      | Some option => w |> setState (setSelectedOption (ClarificationOption.value option))
      | None => w
      end
  | ExecuteClicked parseReply executeReply =>
      if execute_disabled s then w else executeTest parseReply executeReply w
  | ContinueClicked clarificationReply executeReply =>
      match dialog_question s with
      | Some _ =>
          if negb (truthy (selectedOption s)) || isExecuting s then w
          else handleClarificationResponse clarificationReply executeReply w
      | None => w
      end
  | UseDefaultsClicked skipReply executeReply =>
      match dialog_question s with
      | Some _ =>
          if isExecuting s then w
          else skipClarification skipReply executeReply w
      | None => w
      end
  | IntervalFired id reply => interval_fires id reply w
  | TimeoutFired id => timeout_fires id w
  end.

Definition run (events : list Event) (w : World) : World :=
  fold_left (fun w e => step e w) events w.

(** An event that starts one of the three request-issuing handlers. *)
Definition is_submission (e : Event) : bool :=
  match e with
  | ExecuteClicked _ _ | ContinueClicked _ _ | UseDefaultsClicked _ _ => true
  | _ => false
  end.

Definition is_execute_request (e : Effect) : bool :=
  match e with
  | Fetch (ExecuteTestPlan _) => true
  | _ => false
  end.

(** ** One polling run on the clock *)

(** The interval of poller [id] fires [n] times in a row; [feed k] is the
    reply the [k]-th status request gets (counting from [from]). *)
Fixpoint ticks (id : nat) (feed : nat -> Reply) (from n : nat) (w : World) : World :=
  match n with
  | O => w
  | S n' => ticks id feed (S from) n' (interval_fires id (feed from) w)
  end.

(** The number of times an interval of period [POLL_INTERVAL_MS] has come
    due strictly before the ceiling: 199. *)
Definition ticks_before_ceiling : nat :=
  N.to_nat ((POLL_CEILING_MS - 1) / POLL_INTERVAL_MS).

(** The 200th firing of the interval and the timeout are due at the same
    instant; [tick_first] says which of the two the browser runs first. *)
Definition firings_before_timeout (tick_first : bool) : nat :=
  if tick_first then S ticks_before_ceiling else ticks_before_ceiling.

(** The world [elapsed] ms after poller [id] was registered, when only its
    own two timers fire, each at its due time and with its reply at
    hand. *)
Definition poll_elapsed
    (id : nat) (feed : nat -> Reply) (tick_first : bool) (elapsed : N)
    (w : World) : World :=
  let due := N.to_nat (elapsed / POLL_INTERVAL_MS) in
  if (elapsed <? POLL_CEILING_MS)%N
  then ticks id feed 0 due w
  else
    let before := firings_before_timeout tick_first in
    w |> ticks id feed 0 before
      |> timeout_fires id
      |> ticks id feed before (due - before).

(** ** Presentation *)

(** [s.replace(pattern, replacement)] for a pattern and a replacement of
    one code unit each: a string pattern replaces the first match only. *)
Fixpoint replaceFirst (pattern replacement : N) (s : jsstring) : jsstring :=
  match s with
  | [] => []
  | c :: rest =>
      if (c =? pattern)%N then replacement :: rest
      else c :: replaceFirst pattern replacement rest
  end.

(** The label of a status or of a workflow: [.replace('_', ' ')]. *)
Definition display_label (s : jsstring) : jsstring :=
  replaceFirst 0x5F 0x20 s.

Inductive Icon := CheckCircle | XCircle | Clock | HelpCircle.

(** An icon element with its [className]. *)
Record IconElement := mkIcon {
  icon : Icon;
  className : jsstring
}.

Definition getStatusIcon (status : jsstring) : IconElement :=
  if bool_decide (status = lit "completed")
  then mkIcon CheckCircle (lit "w-5 h-5 text-green-500")
  else if bool_decide (status = lit "failed")
  then mkIcon XCircle (lit "w-5 h-5 text-red-500")
  else if bool_decide (status = lit "executing")
          || bool_decide (status = lit "generating")
  then mkIcon Clock (lit "w-5 h-5 text-blue-500 animate-spin")
  else if bool_decide (status = lit "needs_clarification")
  then mkIcon HelpCircle (lit "w-5 h-5 text-orange-500")
  else mkIcon Clock (lit "w-5 h-5 text-gray-500").

Definition getStatusColor (status : jsstring) : jsstring :=
  if bool_decide (status = lit "completed")
  then lit "bg-green-50 border-green-200 text-green-800"
  else if bool_decide (status = lit "failed")
  then lit "bg-red-50 border-red-200 text-red-800"
  else if bool_decide (status = lit "needs_clarification")
  then lit "bg-orange-50 border-orange-200 text-orange-800"
  else if bool_decide (status = lit "executing")
          || bool_decide (status = lit "parsing")
          || bool_decide (status = lit "generating")
  then lit "bg-blue-50 border-blue-200 text-blue-800"
  else lit "bg-gray-50 border-gray-200 text-gray-800".

(** ** Vocabulary of the statements *)

(** Polling of poller [id] has stopped: its interval is cleared and the
    component no longer shows as executing. *)
Definition stopped (id : nat) (w : World) : Prop :=
  (exists p, timers w !! id = Some p /\ interval_live p = false)
  /\ isExecuting (ui w) = false.

(** The interval of poller [id] is still registered. *)
Definition polling (id : nat) (w : World) : Prop :=
  exists p, timers w !! id = Some p /\ interval_live p = true.

(** A status reply that carries one of the two terminal statuses. *)
Definition terminal (status : Result.t) : Prop :=
  Result.status status = Some (lit "completed")
  \/ Result.status status = Some (lit "failed").

(** A reply after which the interval callback leaves the interval
    registered: a parsed body that is not terminal, or a non-2xx answer. *)
Definition keeps_polling (reply : Reply) : Prop :=
  match reply with
  | Ok status => ~ terminal status
  | NotOk _ => True
  | Rejected _ | OkBadBody _ => False
  end.

(** A reply after which the interval callback clears the interval: a
    terminal status, or a [fetch] or [json()] that throws. *)
Definition halts_polling (reply : Reply) : Prop :=
  match reply with
  | Ok status => terminal status
  | NotOk _ => False
  | Rejected _ | OkBadBody _ => True
  end.

(** The status requests among the effects. *)
Definition is_status_request (e : Effect) : bool :=
  match e with
  | Fetch (GetSessionStatus _) => true
  | _ => false
  end.

(** How many status requests have been issued so far. *)
Definition status_requests (w : World) : nat :=
  length (List.filter is_status_request (effects w)).

(** The requests to execute a test plan among the effects. *)
Definition execute_requests (w : World) : list Effect :=
  List.filter is_execute_request (effects w).

(** No interval is registered: every poller has had its interval cleared. *)
Definition no_live_interval (w : World) : Prop :=
  Forall (fun p => interval_live p = false) (timers w).

(** The session is the one poller [p] was started for. *)
Definition started_for (p : Poller) (session : TestSession.t) : Prop :=
  TestSession.sessionId session = poll_sessionId p
  /\ TestSession.command session = poll_instruction p.

(** A reply with another list of detected workflows. *)
Definition with_detected_workflows
    (detected : option (list jsstring)) (r : Result.t) : Result.t :=
  Result.mk (Result.status r) (Result.session_id r) detected
    (Result.clarification r) (Result.workflows r)
    (Result.updated_workflows r) (Result.error_message r) (Result.steps r).

(** The client asks for the status of no session it has not asked to
    execute: every poller is for a session id an execute request has been
    issued for, and every status request comes after an execute request
    for the same session id. *)
Definition polls_only_executed (w : World) : Prop :=
  (forall p, p ∈ timers w ->
     Fetch (ExecuteTestPlan (poll_sessionId p)) ∈ effects w)
  /\ (forall before sid after,
        effects w = before ++ Fetch (GetSessionStatus sid) :: after ->
        Fetch (ExecuteTestPlan sid) ∈ before).

Definition is_alert (e : Effect) : bool :=
  match e with
  | Alert _ => true
  | Fetch _ => false
  end.

(** An event that edits the form or picks an example. *)
Definition edits_form (e : Event) : bool :=
  match e with
  | InstructionChanged _ | IpChanged _ | UrlChanged _ | UsernameChanged _
  | PasswordChanged _ | ExampleClicked _ => true
  | _ => false
  end.

(** Poller [p'] is poller [p] later on: the same closure, and no timer
    registered that was not registered before. *)
Definition winds_down (p p' : Poller) : Prop :=
  poll_sessionId p' = poll_sessionId p
  /\ poll_instruction p' = poll_instruction p
  /\ (interval_live p' = true -> interval_live p = true)
  /\ (timeout_pending p' = true -> timeout_pending p = true).

(** What holds of the worlds the rendered component is in between two
    events, each handler having run to its end: the dialog is shown only
    with a session stored, no alert has been raised, a session is stored
    exactly when something has been requested, and no timer is registered
    before that.  (While a parse request is pending the session is null
    although a request has been sent; such states lie inside a step.) *)
Definition rendered_invariant (w : World) : Prop :=
  (showClarification (ui w) = true -> testSession (ui w) <> None)
  /\ Forall (fun e => is_alert e = false) (effects w)
  /\ (testSession (ui w) = None <-> effects w = [])
  /\ (testSession (ui w) = None -> timers w = []).

(** ** Sample inputs *)

Module Sample.
Definition cluster : ClusterConfig.t :=
  ClusterConfig.mk (lit "192.168.1.100") (lit "admin") (lit "x") [].

Definition text : jsstring := lit "create L3VN".

(** The form filled in, nothing submitted yet. *)
Definition filled : World :=
  mkWorld (mkState text cluster false None [] false false None []) [] [].

(** The form with a blank instruction. *)
Definition blank : World :=
  mkWorld (mkState (lit "  ") cluster false None [] false false None []) [] [].

(** The form filled in except for the password. *)
Definition no_password : World :=
  mkWorld (mkState text
             (ClusterConfig.mk (lit "192.168.1.100") (lit "admin") [] [])
             false None [] false false None []) [] [].

(** The form with an explicit base URL. *)
Definition with_url : World :=
  mkWorld (mkState text
             (ClusterConfig.mk (lit "192.168.1.100") (lit "admin") (lit "x")
                (lit "https://cluster.example.com"))
             false None [] false false None []) [] [].

Definition question : ClarificationQuestion.t :=
  ClarificationQuestion.mk (lit "fabric_selection") (lit "Which fabric?")
    [ ClarificationOption.mk (lit "a") (lit "Fabric A") None None;
      ClarificationOption.mk (lit "b") (lit "Fabric B") None None ]
    (lit "create_l3vn") None.

Definition created : Result.t :=
  Result.mk (Some (lit "created")) (Some (lit "s1")) None None None None None None.

Definition needs_clarification : Result.t :=
  Result.mk (Some (lit "needs_clarification")) (Some (lit "s1"))
    (Some [lit "create_l3vn"]) (Some question) None None None None.

Definition executing : Result.t :=
  Result.mk (Some (lit "executing")) None None None None None None None.

Definition completed : Result.t :=
  Result.mk (Some (lit "completed")) None None None None None None
    (Some [ExecutionStep.mk (lit "1") (lit "network_hierarchy")
             (lit "create area") (lit "passed") (lit "t") None]).

Definition skipped : Result.t :=
  Result.mk None None None None
    (Some [lit "create_l3vn"; lit "login"; lit "create_l3vn"]) None None None.

Definition resolved : Result.t :=
  Result.mk None None None None None (Some [lit "create_l3vn"]) None None.

(** The status replies of the run: executing twice, then completed. *)
Definition feed (k : nat) : Reply :=
  if k <? 2 then Ok executing else Ok completed.

(** Status replies of a run that never ends. *)
Definition endless (k : nat) : Reply := Ok executing.

(** The poller that [executeTest] starts from [filled]. *)
Definition poller : Poller := mkPoller (Some (lit "s1")) text true true.

(** The test plan is running and poller 0 is polling for it. *)
Definition running : World :=
  executeTest (Ok created) (Ok Result.empty) filled.

(** A first run has completed and a second one is polling: poller 0 has
    its interval cleared and its timeout pending, poller 1 is polling. *)
Definition second_run : World :=
  executeTest (Ok created) (Ok Result.empty)
    (interval_fires 0 (Ok completed) running).

(** The clarification dialog is open, nothing chosen yet. *)
Definition asking : World :=
  executeTest (Ok needs_clarification) (Ok Result.empty) filled.

(** The clarification dialog is open and option [a] is chosen. *)
Definition chosen : World := step (OptionChosen 0) asking.

Definition second_text : jsstring :=
  lit "login to cluster and verify home page accessibility".

Definition third_text : jsstring := lit "provision devices to existing fabric".

Definition created_second : Result.t :=
  Result.mk (Some (lit "created")) (Some (lit "s2")) None None None None None None.

Definition needs_clarification_third : Result.t :=
  Result.mk (Some (lit "needs_clarification")) (Some (lit "s3"))
    (Some [lit "provision_devices"]) (Some question) None None None None.

(** From the initial state: a first run (session [s1]) completes at its
    third status reply; a second run (session [s2]) is started and is
    still polling when the timeout of the first comes due; the form is
    then free again and a third instruction is typed in. *)
Definition overlapping : list Event :=
  [ InstructionChanged text;
    IpChanged (lit "192.168.1.100");
    UsernameChanged (lit "admin");
    PasswordChanged (lit "x");
    ExecuteClicked (Ok created) (Ok Result.empty);
    IntervalFired 0 (feed 0);
    IntervalFired 0 (feed 1);
    IntervalFired 0 (feed 2);
    InstructionChanged second_text;
    ExecuteClicked (Ok created_second) (Ok Result.empty);
    IntervalFired 1 (Ok executing);
    TimeoutFired 0;
    InstructionChanged third_text ].

(** The second run is still polling and the form holds the third
    instruction. *)
Definition overlapped : World := run overlapping initialWorld.

(** The third instruction is submitted and the service asks for a
    clarification (session [s3]); the second run is still polling. *)
Definition overlapped_asking : World :=
  step (ExecuteClicked (Ok needs_clarification_third) (Ok Result.empty))
    overlapped.
End Sample.

(** * Properties *)

(** ** Strings *)

Lemma truthy_false_iff (s : jsstring) : truthy s = false <-> s = [].
Proof. destruct s; simpl; split; congruence. Qed.

Lemma truthy_true_iff (s : jsstring) : truthy s = true <-> s <> [].
Proof. destruct s; simpl; split; congruence. Qed.

Lemma trimStart_nil_iff (s : jsstring) :
  trimStart s = [] <-> forallb isWhiteSpace s = true.
Proof.
  induction s as [|c rest IH]; simpl.
  - tauto.
  - destruct (isWhiteSpace c); simpl; [exact IH | split; discriminate].
Qed.

Lemma trimStart_keeps_nonblank_head (s : jsstring) (c : N) (rest : jsstring) :
  trimStart s = c :: rest -> isWhiteSpace c = false.
Proof.
  induction s as [|d s' IH]; simpl; [discriminate|].
  destruct (isWhiteSpace d) eqn:Hd; [exact IH|].
  intros [= -> _]. exact Hd.
Qed.

Lemma forallb_rev {A : Type} (f : A -> bool) (l : list A) :
  forallb f (rev l) = forallb f l.
Proof.
  induction l as [|x l IH]; simpl; [reflexivity|].
  rewrite forallb_app, IH. simpl. rewrite andb_true_r. apply andb_comm.
Qed.

(** [trim] leaves nothing exactly of the strings made of white space only. *)
Lemma trim_nil_iff (s : jsstring) :
  trim s = [] <-> forallb isWhiteSpace s = true.
Proof.
  unfold trim, trimEnd. rewrite <- trimStart_nil_iff. split.
  - intros H.
    assert (Hr : trimStart (rev (trimStart s)) = []).
    { rewrite <- (rev_involutive (trimStart (rev (trimStart s)))), H.
      reflexivity. }
    apply trimStart_nil_iff in Hr. rewrite forallb_rev in Hr.
    destruct (trimStart s) as [|c rest] eqn:Hs; [reflexivity|].
    apply trimStart_keeps_nonblank_head in Hs.
    simpl in Hr. rewrite Hs in Hr. discriminate.
  - intros ->. reflexivity.
Qed.

Lemma missing_required_true_iff (s : State) :
  missing_required s = true <->
  forallb isWhiteSpace (instruction s) = true
  \/ ClusterConfig.ip (clusterConfig s) = []
  \/ ClusterConfig.username (clusterConfig s) = [].
Proof.
  unfold missing_required.
  rewrite !orb_true_iff, !negb_true_iff, !truthy_false_iff, trim_nil_iff.
  tauto.
Qed.

(** ** Effects of the handlers *)

Lemma proceedWithExecution_effects instruction sessionId parseResult reply w :
  effects (proceedWithExecution instruction sessionId parseResult reply w)
  = effects w ++ [Fetch (ExecuteTestPlan sessionId)].
Proof.
  unfold proceedWithExecution.
  destruct (await_json _ reply); reflexivity.
Qed.

Lemma executeTest_effects parseReply executeReply w :
  missing_required (ui w) = false ->
  exists rest,
    effects (executeTest parseReply executeReply w)
    = effects w ++ Fetch (parse_request (ui w)) :: rest
    /\ Forall (fun e => is_execute_request e = true) rest.
Proof.
  intros Hm. unfold executeTest. rewrite Hm.
  destruct (await_json _ parseReply) as [error|parseResult].
  - exists []. split; [reflexivity | constructor].
  - destruct (is_literal _ _).
    + exists []. split; [reflexivity | constructor].
    + rewrite proceedWithExecution_effects. simpl.
      eexists. rewrite <- app_assoc. split; [reflexivity|].
      repeat constructor.
Qed.

(** C4.  [executeTest] with a blank instruction (empty or white space
    only), an empty cluster ip or an empty username only raises the alert:
    no request is issued, and the state and the timers are as before.
    With those three fields filled in the parse request is issued,
    carrying the password as it is, be it empty. *)
Theorem executeTest_required_fields (parseReply executeReply : Reply) (w : World) :
  (forallb isWhiteSpace (instruction (ui w)) = true
   \/ ClusterConfig.ip (clusterConfig (ui w)) = []
   \/ ClusterConfig.username (clusterConfig (ui w)) = [] ->
   ui (executeTest parseReply executeReply w) = ui w
   /\ timers (executeTest parseReply executeReply w) = timers w
   /\ effects (executeTest parseReply executeReply w)
      = effects w ++ [Alert (lit "Please fill in all required fields")])
  /\
  (~ (forallb isWhiteSpace (instruction (ui w)) = true
      \/ ClusterConfig.ip (clusterConfig (ui w)) = []
      \/ ClusterConfig.username (clusterConfig (ui w)) = []) ->
   exists url rest,
     effects (executeTest parseReply executeReply w)
     = effects w
       ++ Fetch (ParseTestInstructions (instruction (ui w)) url
                   (ClusterConfig.username (clusterConfig (ui w)))
                   (ClusterConfig.password (clusterConfig (ui w))))
       :: rest).
Proof.
  split; intros H.
  - apply missing_required_true_iff in H.
    unfold executeTest. rewrite H. auto.
  - rewrite <- missing_required_true_iff in H.
    apply not_true_is_false in H.
    destruct (executeTest_effects parseReply executeReply w H) as (rest & -> & _).
    unfold parse_request. eauto.
Qed.

Lemma executeTest_required_fields_witness :
  ui (executeTest (Ok Sample.created) (Ok Result.empty) Sample.blank)
  = ui Sample.blank
  /\ exists url rest,
       effects (executeTest (Ok Sample.created) (Ok Result.empty) Sample.no_password)
       = Fetch (ParseTestInstructions Sample.text url (lit "admin") []) :: rest.
Proof.
  split.
  - apply (proj1 (executeTest_required_fields _ _ Sample.blank)).
    left. reflexivity.
  - apply (proj2 (executeTest_required_fields _ _ Sample.no_password)).
    intros [H|[H|H]]; discriminate H.
Defined.

(** C8.  [handleClarificationResponse] with no option selected only raises
    the alert: no request is issued, and the state and the timers are as
    before. *)
Theorem handleClarificationResponse_needs_selection
    (clarificationReply executeReply : Reply) (w : World) :
  selectedOption (ui w) = [] ->
  ui (handleClarificationResponse clarificationReply executeReply w) = ui w
  /\ timers (handleClarificationResponse clarificationReply executeReply w)
     = timers w
  /\ effects (handleClarificationResponse clarificationReply executeReply w)
     = effects w ++ [Alert (lit "Please select an option")].
Proof.
  intros H. unfold handleClarificationResponse. rewrite H. auto.
Qed.

Lemma handleClarificationResponse_needs_selection_witness :
  ui (handleClarificationResponse (Ok Sample.resolved) (Ok Result.empty) Sample.asking)
  = ui Sample.asking
  /\ effects (handleClarificationResponse (Ok Sample.resolved) (Ok Result.empty) Sample.asking)
     = effects Sample.asking ++ [Alert (lit "Please select an option")].
Proof.
  destruct (handleClarificationResponse_needs_selection
              (Ok Sample.resolved) (Ok Result.empty) Sample.asking)
    as (Hui & _ & Heff).
  - reflexivity.
  - split; [exact Hui | exact Heff].
Defined.

(** C10.  When the form passes the check of [executeTest], the [url] of
    the parse request is ["https://"] followed by the cluster ip if the
    url field is empty, and the url field as it is otherwise. *)
Theorem parse_request_url (parseReply executeReply : Reply) (w : World) :
  missing_required (ui w) = false ->
  exists url rest,
    effects (executeTest parseReply executeReply w)
    = effects w
      ++ Fetch (ParseTestInstructions (instruction (ui w)) url
                  (ClusterConfig.username (clusterConfig (ui w)))
                  (ClusterConfig.password (clusterConfig (ui w))))
      :: rest
    /\ Forall (fun e => is_execute_request e = true) rest
    /\ (ClusterConfig.url (clusterConfig (ui w)) = [] ->
        url = lit "https://" ++ ClusterConfig.ip (clusterConfig (ui w)))
    /\ (ClusterConfig.url (clusterConfig (ui w)) <> [] ->
        url = ClusterConfig.url (clusterConfig (ui w))).
Proof.
  intros Hm.
  destruct (executeTest_effects parseReply executeReply w Hm) as (rest & -> & Hrest).
  unfold parse_request.
  destruct (ClusterConfig.url (clusterConfig (ui w))) as [|c u] eqn:Hu;
    simpl; do 2 eexists; (split; [reflexivity|]); (split; [exact Hrest|]);
    split; congruence.
Qed.

Lemma parse_request_url_witness :
  (exists rest,
     effects (executeTest (Ok Sample.created) (Ok Result.empty) Sample.filled)
     = Fetch (ParseTestInstructions Sample.text (lit "https://192.168.1.100")
                (lit "admin") (lit "x")) :: rest)
  /\ (exists rest,
        effects (executeTest (Ok Sample.created) (Ok Result.empty) Sample.with_url)
        = Fetch (ParseTestInstructions Sample.text (lit "https://cluster.example.com")
                   (lit "admin") (lit "x")) :: rest).
Proof.
  split.
  - destruct (parse_request_url (Ok Sample.created) (Ok Result.empty) Sample.filled)
      as (url & rest & Heff & _ & Hempty & _); [reflexivity|].
    exists rest. rewrite Heff, (Hempty eq_refl). reflexivity.
  - destruct (parse_request_url (Ok Sample.created) (Ok Result.empty) Sample.with_url)
      as (url & rest & Heff & _ & _ & Hgiven); [reflexivity|].
    exists rest. rewrite Heff, (Hgiven ltac:(discriminate)). reflexivity.
Defined.

(** ** Timers *)

Lemma clearInterval_ui id w : ui (clearInterval id w) = ui w.
Proof. unfold clearInterval. destruct (timers w !! id); reflexivity. Qed.

Lemma clearInterval_effects id w : effects (clearInterval id w) = effects w.
Proof. unfold clearInterval. destruct (timers w !! id); reflexivity. Qed.

Lemma clearInterval_lookup id p w :
  timers w !! id = Some p ->
  timers (clearInterval id w) !! id
  = Some (mkPoller (poll_sessionId p) (poll_instruction p) false
            (timeout_pending p)).
Proof.
  intros H. unfold clearInterval. rewrite H. simpl.
  apply list_lookup_insert_eq. eapply lookup_lt_Some, H.
Qed.

Lemma timeout_done_lookup id p w :
  timers w !! id = Some p ->
  timers (timeout_done id w) !! id
  = Some (mkPoller (poll_sessionId p) (poll_instruction p) (interval_live p)
            false).
Proof.
  intros H. unfold timeout_done. rewrite H. simpl.
  apply list_lookup_insert_eq. eapply lookup_lt_Some, H.
Qed.

Lemma terminal_test (status : Result.t) :
  is_literal (Result.status status) "completed"
  || is_literal (Result.status status) "failed" = true
  <-> terminal status.
Proof.
  unfold is_literal, terminal.
  rewrite orb_true_iff, !bool_decide_eq_true. tauto.
Qed.

Lemma not_terminal_test (status : Result.t) :
  ~ terminal status ->
  is_literal (Result.status status) "completed"
  || is_literal (Result.status status) "failed" = false.
Proof.
  intros H. apply not_true_is_false. rewrite terminal_test. exact H.
Qed.

(** A cleared interval never runs its callback again. *)
Lemma interval_fires_cleared id p reply w :
  timers w !! id = Some p -> interval_live p = false ->
  interval_fires id reply w = w.
Proof. intros H Hl. unfold interval_fires. rewrite H, Hl. reflexivity. Qed.

Lemma status_requests_perform (sid : option jsstring) w :
  status_requests (perform (Fetch (GetSessionStatus sid)) w)
  = S (status_requests w).
Proof.
  unfold status_requests, perform. simpl.
  rewrite List.filter_app, length_app. simpl. lia.
Qed.

(** A firing that finds the interval registered issues one status request;
    on a halting reply it clears the interval and resets [isExecuting]. *)
Lemma interval_fires_halts id p reply w :
  timers w !! id = Some p -> interval_live p = true ->
  halts_polling reply ->
  timers (interval_fires id reply w) !! id
  = Some (mkPoller (poll_sessionId p) (poll_instruction p) false
            (timeout_pending p))
  /\ isExecuting (ui (interval_fires id reply w)) = false
  /\ status_requests (interval_fires id reply w) = S (status_requests w).
Proof.
  intros H Hl Hr. unfold interval_fires. rewrite H, Hl. unfold poll_tick.
  pose proof (status_requests_perform (poll_sessionId p) w) as Hn.
  assert (Hcount : forall w',
    effects w' = effects (perform (Fetch (GetSessionStatus (poll_sessionId p))) w) ->
    status_requests w' = S (status_requests w)).
  { intros w' Hw'. unfold status_requests in *. rewrite Hw'. exact Hn. }
  destruct reply as [e|st|e|status]; simpl in Hr; try contradiction.
  - split; [|split; [reflexivity|]].
    + apply (clearInterval_lookup id p (perform _ w)). exact H.
    + apply Hcount. simpl. apply clearInterval_effects.
  - split; [|split; [reflexivity|]].
    + apply (clearInterval_lookup id p (perform _ w)). exact H.
    + apply Hcount. simpl. apply clearInterval_effects.
  - apply terminal_test in Hr. rewrite Hr.
    destruct (Result.steps status); simpl.
    + split; [|split; [reflexivity|]].
      * apply (clearInterval_lookup id p (setState _ (perform _ w))). exact H.
      * apply Hcount. simpl. apply clearInterval_effects.
    + split; [|split; [reflexivity|]].
      * apply (clearInterval_lookup id p (setState _ (perform _ w))). exact H.
      * apply Hcount. simpl. apply clearInterval_effects.
Qed.

(** On any other reply it leaves the timers and [isExecuting] alone. *)
Lemma interval_fires_keeps id p reply w :
  timers w !! id = Some p -> interval_live p = true ->
  keeps_polling reply ->
  timers (interval_fires id reply w) = timers w
  /\ isExecuting (ui (interval_fires id reply w)) = isExecuting (ui w)
  /\ status_requests (interval_fires id reply w) = S (status_requests w).
Proof.
  intros H Hl Hr. unfold interval_fires. rewrite H, Hl. unfold poll_tick.
  pose proof (status_requests_perform (poll_sessionId p) w) as Hn.
  destruct reply as [e|st|e|status]; simpl in Hr; try contradiction.
  - auto.
  - rewrite (not_terminal_test _ Hr). auto.
Qed.

Lemma ticks_cleared id p feed from n w :
  timers w !! id = Some p -> interval_live p = false ->
  ticks id feed from n w = w.
Proof.
  revert from. induction n as [|n IH]; intros from H Hl; simpl.
  - reflexivity.
  - rewrite (interval_fires_cleared id p _ w H Hl). apply IH; assumption.
Qed.

Lemma ticks_keep id p feed from n w :
  timers w !! id = Some p -> interval_live p = true ->
  (forall k, k < n -> keeps_polling (feed (from + k))) ->
  timers (ticks id feed from n w) = timers w
  /\ isExecuting (ui (ticks id feed from n w)) = isExecuting (ui w)
  /\ status_requests (ticks id feed from n w) = status_requests w + n.
Proof.
  revert from w. induction n as [|n IH]; intros from w H Hl Hk; simpl.
  - auto with lia.
  - destruct (interval_fires_keeps id p (feed from) w H Hl) as (Ht & He & Hn).
    { specialize (Hk 0). rewrite Nat.add_0_r in Hk. apply Hk. lia. }
    destruct (IH (S from) (interval_fires id (feed from) w)) as (Ht' & He' & Hn').
    + rewrite Ht. exact H.
    + exact Hl.
    + intros k Hlt. replace (S from + k) with (from + S k) by lia.
      apply Hk. lia.
    + rewrite Ht', He', Hn', Ht, He, Hn. auto with lia.
Qed.

Lemma ticks_app id feed from n m w :
  ticks id feed from (n + m) w
  = ticks id feed (from + n) m (ticks id feed from n w).
Proof.
  revert from w. induction n as [|n IH]; intros from w; simpl.
  - rewrite Nat.add_0_r. reflexivity.
  - rewrite IH. replace (S from + n) with (from + S n) by lia. reflexivity.
Qed.

Lemma ticks_snoc id feed from n w :
  ticks id feed from (S n) w
  = interval_fires id (feed (from + n)) (ticks id feed from n w).
Proof.
  replace (S n) with (n + 1) by lia. rewrite ticks_app. reflexivity.
Qed.

(** Replies that keep the polling going, then one that halts it: the
    halting firing is the last one. *)
Lemma ticks_until_halt id p feed n more w :
  timers w !! id = Some p -> interval_live p = true ->
  (forall k, k < n -> keeps_polling (feed k)) ->
  halts_polling (feed n) ->
  ticks id feed 0 (S n + more) w
  = interval_fires id (feed n) (ticks id feed 0 n w)
  /\ stopped id (interval_fires id (feed n) (ticks id feed 0 n w))
  /\ status_requests (interval_fires id (feed n) (ticks id feed 0 n w))
     = status_requests w + S n.
Proof.
  intros H Hl Hk Hh.
  destruct (ticks_keep id p feed 0 n w H Hl) as (Ht & He & Hn); [assumption|].
  destruct (interval_fires_halts id p (feed n) (ticks id feed 0 n w))
    as (Ht' & He' & Hn'); [rewrite Ht; exact H | exact Hl | assumption |].
  split; [|split].
  - rewrite ticks_app, ticks_snoc. simpl.
    apply (ticks_cleared id _ feed _ more _ Ht' eq_refl).
  - split; eauto.
  - lia.
Qed.

(** C1.  While the interval of a poller is registered: a firing that gets
    a status reply with status [completed] or [failed] stops the polling at
    once (interval cleared, [isExecuting] false); a firing that gets any
    other parsed status reply leaves the interval registered and
    [isExecuting] as it was; a firing whose [fetch] throws stops the
    polling and leaves the session as it was.  Over a sequence of replies,
    the first halting reply is the last status request issued: the cleared
    interval fires no more, so nothing is retried. *)
Theorem polling_stops_on_terminal_status_or_throw
    (id : nat) (p : Poller) (w : World) :
  timers w !! id = Some p -> interval_live p = true ->
  (forall status, terminal status ->
     stopped id (interval_fires id (Ok status) w))
  /\ (forall status, ~ terminal status ->
        polling id (interval_fires id (Ok status) w)
        /\ isExecuting (ui (interval_fires id (Ok status) w))
           = isExecuting (ui w))
  /\ (forall error,
        stopped id (interval_fires id (Rejected error) w)
        /\ testSession (ui (interval_fires id (Rejected error) w))
           = testSession (ui w))
  /\ (forall feed n more,
        (forall k, k < n -> keeps_polling (feed k)) ->
        halts_polling (feed n) ->
        polling id (ticks id feed 0 n w)
        /\ stopped id (ticks id feed 0 (S n + more) w)
        /\ status_requests (ticks id feed 0 (S n + more) w)
           = status_requests w + S n).
Proof.
  intros H Hl. split; [|split; [|split]].
  - intros status Hs.
    destruct (interval_fires_halts id p (Ok status) w H Hl) as (Ht & He & _);
      [assumption|]. split; eauto.
  - intros status Hs.
    destruct (interval_fires_keeps id p (Ok status) w H Hl) as (Ht & He & _);
      [assumption|].
    split; [|exact He]. exists p. rewrite Ht. auto.
  - intros error.
    destruct (interval_fires_halts id p (Rejected error) w H Hl) as (Ht & He & _);
      [exact I|].
    split; [split; eauto|].
    unfold interval_fires. rewrite H, Hl. simpl.
    rewrite clearInterval_ui. reflexivity.
  - intros feed n more Hk Hh.
    destruct (ticks_keep id p feed 0 n w H Hl) as (Ht & _ & _); [assumption|].
    destruct (ticks_until_halt id p feed n more w H Hl Hk Hh) as (-> & Hs & Hn).
    split; [|split; assumption].
    exists p. rewrite Ht. auto.
Qed.

Lemma polling_stops_on_terminal_status_or_throw_witness :
  stopped 0 (interval_fires 0 (Ok Sample.completed) Sample.running)
  /\ polling 0 (interval_fires 0 (Ok Sample.executing) Sample.running)
  /\ stopped 0 (interval_fires 0 (Rejected NonError) Sample.running)
  /\ status_requests (ticks 0 Sample.feed 0 (3 + 7) Sample.running) = 3.
Proof.
  destruct (polling_stops_on_terminal_status_or_throw
              0 Sample.poller Sample.running eq_refl eq_refl)
    as (Hdone & Hgo & Hthrow & Hseq).
  split; [|split; [|split]].
  - apply Hdone. left. reflexivity.
  - apply Hgo. intros [H|H]; discriminate H.
  - apply Hthrow.
  - apply (Hseq Sample.feed 2 7).
    + intros k Hk. unfold Sample.feed.
      destruct k as [|[|k]]; simpl; try (intros [H|H]; discriminate H).
      lia.
    + left. reflexivity.
Defined.

(** ** The ceiling *)

Lemma interval_fires_timeout_pending id p reply w :
  timers w !! id = Some p ->
  exists p', timers (interval_fires id reply w) !! id = Some p'
             /\ timeout_pending p' = timeout_pending p.
Proof.
  intros H. unfold interval_fires. rewrite H.
  destruct (interval_live p) eqn:Hl; [|eauto].
  destruct reply as [e|st|e|status].
  - destruct (interval_fires_halts id p (Rejected e) w H Hl I) as (Ht & _).
    unfold interval_fires in Ht. rewrite H, Hl in Ht. eauto.
  - simpl. eauto.
  - destruct (interval_fires_halts id p (OkBadBody e) w H Hl I) as (Ht & _).
    unfold interval_fires in Ht. rewrite H, Hl in Ht. eauto.
  - destruct (decide (terminal status)) as [Hs|Hs].
    + destruct (interval_fires_halts id p (Ok status) w H Hl Hs) as (Ht & _).
      unfold interval_fires in Ht. rewrite H, Hl in Ht. eauto.
    + destruct (interval_fires_keeps id p (Ok status) w H Hl Hs) as (Ht & _).
      unfold interval_fires in Ht. rewrite H, Hl in Ht. rewrite Ht. eauto.
Qed.

Lemma ticks_timeout_pending id p feed from n w :
  timers w !! id = Some p ->
  exists p', timers (ticks id feed from n w) !! id = Some p'
             /\ timeout_pending p' = timeout_pending p.
Proof.
  revert from p w. induction n as [|n IH]; intros from p w H; simpl.
  - eauto.
  - destruct (interval_fires_timeout_pending id p (feed from) w H)
      as (p1 & H1 & Hp1).
    destruct (IH (S from) p1 _ H1) as (p2 & H2 & Hp2).
    exists p2. split; [exact H2 | congruence].
Qed.

(** The timeout callback clears the interval and resets [isExecuting]; it
    touches neither the session nor anything else of the state. *)
Lemma timeout_fires_stops id p w :
  timers w !! id = Some p -> timeout_pending p = true ->
  timers (timeout_fires id w) !! id
  = Some (mkPoller (poll_sessionId p) (poll_instruction p) false false)
  /\ ui (timeout_fires id w) = setIsExecuting false (ui w)
  /\ effects (timeout_fires id w) = effects w.
Proof.
  intros H Hp. unfold timeout_fires. rewrite H, Hp. simpl.
  rewrite clearInterval_ui, clearInterval_effects.
  split; [|split].
  - rewrite (clearInterval_lookup id _ _ (timeout_done_lookup id p w H)).
    reflexivity.
  - unfold timeout_done. rewrite H. reflexivity.
  - unfold timeout_done. rewrite H. reflexivity.
Qed.

(** C5.  A polling run whose timeout is still pending has stopped once
    600000 ms have elapsed, whatever the replies were: the interval is
    cleared and [isExecuting] is false.  The timeout changes nothing else:
    the state is the one the last firing before it left, with
    [isExecuting] reset, so the session keeps its last status, and no
    status request is issued from then on.  Before the ceiling, replies
    that are not terminal leave the interval registered. *)
Theorem polling_ceiling
    (id : nat) (p : Poller) (feed : nat -> Reply) (tick_first : bool)
    (w : World) :
  timers w !! id = Some p -> timeout_pending p = true ->
  (forall elapsed, (POLL_CEILING_MS <= elapsed)%N ->
     stopped id (poll_elapsed id feed tick_first elapsed w)
     /\ ui (poll_elapsed id feed tick_first elapsed w)
        = setIsExecuting false
            (ui (ticks id feed 0 (firings_before_timeout tick_first) w))
     /\ effects (poll_elapsed id feed tick_first elapsed w)
        = effects (ticks id feed 0 (firings_before_timeout tick_first) w))
  /\ (forall elapsed, (elapsed < POLL_CEILING_MS)%N ->
        interval_live p = true ->
        (forall k, keeps_polling (feed k)) ->
        polling id (poll_elapsed id feed tick_first elapsed w)).
Proof.
  intros H Hp. split.
  - intros elapsed Hle. unfold poll_elapsed.
    destruct (N.ltb_spec elapsed POLL_CEILING_MS) as [Hlt|_]; [lia|].
    set (before := firings_before_timeout tick_first).
    destruct (ticks_timeout_pending id p feed 0 before w H) as (p1 & H1 & Hp1).
    rewrite Hp in Hp1.
    destruct (timeout_fires_stops id p1 _ H1 Hp1) as (Ht & Hui & Heff).
    rewrite (ticks_cleared id _ feed _ _ _ Ht eq_refl).
    split; [|split; assumption].
    split; [eauto|]. rewrite Hui. reflexivity.
  - intros elapsed Hlt Hl Hk. unfold poll_elapsed.
    destruct (N.ltb_spec elapsed POLL_CEILING_MS) as [_|Hge]; [|lia].
    destruct (ticks_keep id p feed 0 (N.to_nat (elapsed / POLL_INTERVAL_MS)) w
                H Hl) as (Ht & _); [auto|].
    exists p. rewrite Ht. auto.
Qed.

Lemma polling_ceiling_witness :
  stopped 0 (poll_elapsed 0 Sample.endless false 600000 Sample.running)
  /\ (TestSession.status <$>
        testSession (ui (poll_elapsed 0 Sample.endless false 600000 Sample.running)))
     = Some (lit "executing")
  /\ polling 0 (poll_elapsed 0 Sample.endless false 599999 Sample.running).
Proof.
  destruct (polling_ceiling 0 Sample.poller Sample.endless false Sample.running
              eq_refl eq_refl) as (Hafter & Hbefore).
  destruct (Hafter 600000%N) as (Hstop & Hui & _); [reflexivity|].
  split; [exact Hstop|]. split.
  - rewrite Hui. vm_compute. reflexivity.
  - apply Hbefore; [reflexivity | reflexivity |].
    intros k [H|H]; discriminate H.
Defined.

(** ** The session under polling *)

(** [proceedWithExecution], when the test plan is accepted, registers a
    new poller for the session it has just stored. *)
Lemma proceedWithExecution_starts_polling
    instruction sessionId parseResult body w :
  exists p session,
    timers (proceedWithExecution instruction sessionId parseResult (Ok body) w)
      !! length (timers w) = Some p
    /\ interval_live p = true /\ timeout_pending p = true
    /\ testSession
         (ui (proceedWithExecution instruction sessionId parseResult (Ok body) w))
       = Some session
    /\ started_for p session.
Proof.
  unfold proceedWithExecution. simpl.
  do 2 eexists. split.
  - apply list_lookup_middle. reflexivity.
  - repeat split.
Qed.

(** A firing of the interval keeps the closure of its poller, and keeps
    the session one the poller was started for. *)
Lemma interval_fires_started_for id p reply prev w :
  timers w !! id = Some p ->
  testSession (ui w) = Some prev -> started_for p prev ->
  exists p' session,
    timers (interval_fires id reply w) !! id = Some p'
    /\ poll_sessionId p' = poll_sessionId p
    /\ poll_instruction p' = poll_instruction p
    /\ testSession (ui (interval_fires id reply w)) = Some session
    /\ started_for p' session.
Proof.
  intros H Hprev Hfor. unfold interval_fires. rewrite H.
  destruct (interval_live p) eqn:Hl; [|exists p, prev; auto].
  unfold poll_tick.
  destruct reply as [e|st|e|status].
  - do 2 eexists. split; [|split; [|split; [|split]]].
    + apply (clearInterval_lookup id p (perform _ w)). exact H.
    + reflexivity.
    + reflexivity.
    + simpl. rewrite clearInterval_ui. exact Hprev.
    + exact Hfor.
  - exists p, prev. auto.
  - do 2 eexists. split; [|split; [|split; [|split]]].
    + apply (clearInterval_lookup id p (perform _ w)). exact H.
    + reflexivity.
    + reflexivity.
    + simpl. rewrite clearInterval_ui. exact Hprev.
    + exact Hfor.
  - destruct (_ || _).
    + exists (mkPoller (poll_sessionId p) (poll_instruction p) false
                (timeout_pending p)),
             (polled_session p status (Some prev)).
      split; [|split; [|split; [|split]]]; try reflexivity.
      * destruct (Result.steps status);
          apply (clearInterval_lookup id p (setState _ (perform _ w))); exact H.
      * destruct (Result.steps status); simpl; rewrite clearInterval_ui; simpl;
          rewrite Hprev; reflexivity.
      * split; reflexivity.
    + exists p, (polled_session p status (Some prev)).
      split; [exact H|]. split; [reflexivity|]. split; [reflexivity|].
      split; [simpl; rewrite Hprev; reflexivity | split; reflexivity].
Qed.

(** So along a run of firings the session id and the command of the
    session stay those the poller was started with. *)
Lemma ticks_started_for id p feed from n prev w :
  timers w !! id = Some p ->
  testSession (ui w) = Some prev -> started_for p prev ->
  exists session,
    testSession (ui (ticks id feed from n w)) = Some session
    /\ TestSession.sessionId session = TestSession.sessionId prev
    /\ TestSession.command session = TestSession.command prev.
Proof.
  revert from p prev w.
  induction n as [|n IH]; intros from p prev w H Hprev Hfor; simpl.
  - eauto.
  - destruct (interval_fires_started_for id p (feed from) prev w H Hprev Hfor)
      as (p' & session & H' & Hsid & Hcmd & Hs' & Hfor').
    destruct (IH (S from) p' session _ H' Hs' Hfor') as (last & Hlast & Hs & Hc).
    exists last. split; [exact Hlast|].
    destruct Hfor as [Hf1 Hf2], Hfor' as [Hf1' Hf2']. split; congruence.
Qed.

(** C7, as the claim has it, fails when the interval that fires belongs
    to an earlier run: the session stored is that of the third submission,
    and the firing replaces its session id and its command by those of
    the second run. *)
Lemma poll_tick_replaces_session_identity_counterexample :
  testSession (ui Sample.overlapped_asking)
  = Some (TestSession.mk (Some (lit "s3")) (lit "needs_clarification")
            Sample.third_text (Some [lit "provision_devices"]) None)
  /\ testSession
       (ui (interval_fires 1 (Ok Sample.executing) Sample.overlapped_asking))
     = Some (TestSession.mk (Some (lit "s2")) (lit "executing")
               Sample.second_text (Some [lit "provision_devices"]) None)
  /\ ~ (exists prev new,
          testSession (ui Sample.overlapped_asking) = Some prev
          /\ testSession
               (ui (interval_fires 1 (Ok Sample.executing)
                      Sample.overlapped_asking))
             = Some new
          /\ TestSession.sessionId new = TestSession.sessionId prev
          /\ TestSession.command new = TestSession.command prev).
Proof.
  split; [reflexivity|]. split; [reflexivity|].
  intros (prev & new & [= <-] & [= <-] & Hsid & _). discriminate Hsid.
Qed.

(** C7, amended.  A firing of a registered interval that gets a parsed
    status reply stores a session whose status is the status of the reply
    ([executing] if the reply has none), whose workflows are those of the
    reply, or the list known before if the reply has none, and whose
    error message is that of the reply; its session id and its command
    are the session id and the instruction the poller was started with.
    So they stay as they were when the session stored is one the poller
    was started for, and only then. *)
Theorem poll_tick_rewrites_session
    (id : nat) (p : Poller) (w : World) (status : Result.t) :
  timers w !! id = Some p -> interval_live p = true ->
  exists new,
    testSession (ui (interval_fires id (Ok status) w)) = Some new
    /\ TestSession.status new = str_or (Result.status status) (lit "executing")
    /\ (forall s, Result.status status = Some s -> s <> [] ->
          TestSession.status new = s)
    /\ (forall list, Result.workflows status = Some list ->
          TestSession.workflows new = Some list)
    /\ (Result.workflows status = None ->
          TestSession.workflows new
          = Some (or_else (testSession (ui w) ≫= TestSession.workflows) []))
    /\ (Result.workflows status = None ->
          forall prev known,
            testSession (ui w) = Some prev ->
            TestSession.workflows prev = Some known ->
            TestSession.workflows new = Some known)
    /\ TestSession.errorMessage new = Result.error_message status
    /\ TestSession.sessionId new = poll_sessionId p
    /\ TestSession.command new = poll_instruction p
    /\ (forall prev,
          testSession (ui w) = Some prev ->
          (TestSession.sessionId new = TestSession.sessionId prev
           /\ TestSession.command new = TestSession.command prev
           <-> started_for p prev)).
Proof.
  intros H Hl.
  exists (polled_session p status (testSession (ui w))). split.
  - unfold interval_fires. rewrite H, Hl. unfold poll_tick.
    destruct (_ || _); [destruct (Result.steps status)|]; simpl;
      rewrite ?clearInterval_ui; reflexivity.
  - unfold polled_session, started_for. simpl.
    repeat split; try congruence.
    + intros s -> Hs. simpl. destruct s; [contradiction | reflexivity].
    + intros list ->. reflexivity.
    + intros ->. reflexivity.
    + intros -> prev known Hp Hk. rewrite Hp. simpl. rewrite Hk. reflexivity.
    + match goal with Hboth : _ /\ _ |- _ => destruct Hboth; congruence end.
    + match goal with Hboth : _ /\ _ |- _ => destruct Hboth; congruence end.
    + match goal with Hboth : _ /\ _ |- _ => destruct Hboth; congruence end.
    + match goal with Hboth : _ /\ _ |- _ => destruct Hboth; congruence end.
Qed.

Lemma poll_tick_rewrites_session_witness :
  exists new,
    testSession (ui (interval_fires 0 (Ok Sample.completed) Sample.running))
    = Some new
    /\ TestSession.status new = lit "completed"
    /\ TestSession.workflows new = Some []
    /\ TestSession.sessionId new = Some (lit "s1")
    /\ TestSession.command new = Sample.text.
Proof.
  destruct (poll_tick_rewrites_session 0 Sample.poller Sample.running
              Sample.completed eq_refl eq_refl)
    as (new & Hnew & _ & Hstatus & _ & _ & Hkept & _ & Hsid & Hcmd & _).
  exists new. split; [exact Hnew|]. split; [|split; [|split]].
  - apply Hstatus; [reflexivity | discriminate].
  - apply (Hkept eq_refl
             (TestSession.mk (Some (lit "s1")) (lit "executing") Sample.text
                (Some []) None)); reflexivity.
  - exact Hsid.
  - exact Hcmd.
Defined.

(** ** Clarification *)

(** C6.  When the skip request succeeds with a reply that carries a
    workflow list, [skipClarification] passes through [skip_resolved],
    where the session is [parsing] with exactly that list, and, when the
    test plan is then accepted, ends with the session [executing] with
    exactly that list. *)
Theorem skip_keeps_server_workflows
    (skipResult : Result.t) (executeReply : Reply) (w : World)
    (session : TestSession.t) (list : list jsstring) :
  testSession (ui w) = Some session ->
  Result.workflows skipResult = Some list ->
  skipClarification (Ok skipResult) executeReply w
  = proceedWithExecution (instruction (ui w)) (TestSession.sessionId session)
      skipResult executeReply
      (skip_resolved skipResult
         (w |> setState (setIsExecuting true)
            |> perform (Fetch (SkipClarification (TestSession.sessionId session)))))
  /\ testSession
       (ui (skip_resolved skipResult
              (w |> setState (setIsExecuting true)
                 |> perform (Fetch (SkipClarification (TestSession.sessionId session))))))
     = Some (TestSession.mk (TestSession.sessionId session) (lit "parsing")
               (TestSession.command session) (Some list)
               (TestSession.errorMessage session))
  /\ (forall body, executeReply = Ok body ->
        testSession (ui (skipClarification (Ok skipResult) executeReply w))
        = Some (TestSession.mk (TestSession.sessionId session) (lit "executing")
                  (instruction (ui w)) (Some list) None)).
Proof.
  intros Hs Hl. split; [|split].
  - unfold skipClarification. rewrite Hs. reflexivity.
  - unfold skip_resolved, updateTestSession. simpl. rewrite Hs, Hl. reflexivity.
  - intros body ->. unfold skipClarification. rewrite Hs. simpl.
    unfold proceedWithExecution. simpl. rewrite Hl. reflexivity.
Qed.

Lemma skip_keeps_server_workflows_witness :
  (TestSession.workflows <$>
     testSession (ui (skipClarification (Ok Sample.skipped) (Ok Result.empty)
                        Sample.asking)))
  = Some (Some [lit "create_l3vn"; lit "login"; lit "create_l3vn"]).
Proof.
  destruct (skip_keeps_server_workflows Sample.skipped (Ok Result.empty)
              Sample.asking
              (TestSession.mk (Some (lit "s1")) (lit "needs_clarification")
                 Sample.text (Some [lit "create_l3vn"]) None)
              [lit "create_l3vn"; lit "login"; lit "create_l3vn"]
              eq_refl eq_refl) as (_ & _ & Hfinal).
  rewrite (Hfinal Result.empty eq_refl). reflexivity.
Defined.

(** ** What the timers and the form controls cannot do *)


Lemma timeout_fires_effects id w : effects (timeout_fires id w) = effects w.
Proof.
  destruct (timers w !! id) as [p|] eqn:H;
    [|unfold timeout_fires; rewrite H; reflexivity].
  destruct (timeout_pending p) eqn:Hp;
    [|unfold timeout_fires; rewrite H, Hp; reflexivity].
  apply (timeout_fires_stops id p w H Hp).
Qed.


Lemma no_live_interval_clear id w :
  no_live_interval w -> no_live_interval (clearInterval id w).
Proof.
  unfold no_live_interval, clearInterval. intros H.
  destruct (timers w !! id) as [p|]; [|exact H].
  simpl. apply Forall_insert; [exact H | reflexivity].
Qed.

(** With no interval registered, an event that is not a submission leaves
    the session and the clarification as they are. *)
Lemma step_quiet e w :
  is_submission e = false -> no_live_interval w ->
  no_live_interval (step e w)
  /\ testSession (ui (step e w)) = testSession (ui w)
  /\ clarificationQuestion (ui (step e w)) = clarificationQuestion (ui w)
  /\ showClarification (ui (step e w)) = showClarification (ui w).
Proof.
  intros He Hq.
  destruct e as [v|v|v|v|v| |index|index|?|?|?|id reply|id]; simpl;
    try discriminate.
  1-5: destruct (isExecuting (ui w)); auto.
  - auto.
  - destruct (showExamples (ui w)), (exampleInstructions !! index); auto.
  - destruct (dialog_question (ui w) ≫= _); auto.
  - unfold interval_fires. destruct (timers w !! id) as [p|] eqn:H; [|auto].
    rewrite (Forall_lookup_1 _ _ _ _ Hq H). auto.
  - unfold timeout_fires. destruct (timers w !! id) as [p|] eqn:H; [|auto].
    destruct (timeout_pending p); [|auto]. simpl.
    rewrite clearInterval_ui. split; [|unfold timeout_done; rewrite H; auto].
    apply (no_live_interval_clear id (timeout_done id w)).
    unfold no_live_interval, timeout_done. rewrite H. simpl.
    apply Forall_insert; [exact Hq|]. simpl.
    apply (Forall_lookup_1 _ _ _ _ Hq H).
Qed.


Lemma run_quiet events w :
  Forall (fun e => is_submission e = false) events ->
  no_live_interval w ->
  testSession (ui (run events w)) = testSession (ui w)
  /\ clarificationQuestion (ui (run events w)) = clarificationQuestion (ui w)
  /\ showClarification (ui (run events w)) = showClarification (ui w).
Proof.
  intros H. revert w. induction H as [|e events He _ IH]; intros w Hq.
  - auto.
  - change (run (e :: events) w) with (run events (step e w)).
    destruct (step_quiet e w He Hq) as (Hq' & Hs & Hc & Hd).
    destruct (IH _ Hq') as (Hs' & Hc' & Hd').
    rewrite Hs', Hc', Hd'. auto.
Qed.




(** ** Answers that are not 2xx *)

(** C2, as the claim has it, fails for the status request: a 500 answer
    to it leaves the running session as it is, neither failed nor with an
    error message. *)
Lemma get_session_status_not_ok_counterexample :
  testSession
    (ui (interval_fires 0 (NotOk (lit "Internal Server Error")) Sample.running))
  = Some (TestSession.mk (Some (lit "s1")) (lit "executing") Sample.text
            (Some []) None)
  /\ ~ (exists session,
          testSession
            (ui (interval_fires 0 (NotOk (lit "Internal Server Error"))
                   Sample.running))
          = Some session
          /\ TestSession.status session = lit "failed").
Proof.
  split; [reflexivity|].
  intros (session & [= <-] & H). discriminate H.
Qed.

(** C2, amended.  An answer that is not 2xx to the parse, the
    clarification, the skip or the execute request leaves the session
    [failed], its error message being the text of the request followed by
    the HTTP status text, and [isExecuting] false.  An answer that is not
    2xx to a status request changes neither the state nor the timers: the
    polling goes on. *)
Theorem not_ok_fails_session_except_polling (statusText : jsstring) :
  (forall executeReply w,
     missing_required (ui w) = false ->
     testSession (ui (executeTest (NotOk statusText) executeReply w))
     = Some (TestSession.mk (Some (lit "error")) (lit "failed")
               (instruction (ui w)) (Some [])
               (Some (lit "Failed to parse instructions: " ++ statusText)))
     /\ isExecuting (ui (executeTest (NotOk statusText) executeReply w)) = false)
  /\ (forall executeReply w session question,
        selectedOption (ui w) <> [] ->
        testSession (ui w) = Some session ->
        clarificationQuestion (ui w) = Some question ->
        testSession
          (ui (handleClarificationResponse (NotOk statusText) executeReply w))
        = Some (TestSession.mk (TestSession.sessionId session) (lit "failed")
                  (TestSession.command session) (TestSession.workflows session)
                  (Some (lit "Failed to process clarification: " ++ statusText)))
        /\ isExecuting
             (ui (handleClarificationResponse (NotOk statusText) executeReply w))
           = false)
  /\ (forall executeReply w session,
        testSession (ui w) = Some session ->
        testSession (ui (skipClarification (NotOk statusText) executeReply w))
        = Some (TestSession.mk (TestSession.sessionId session) (lit "failed")
                  (TestSession.command session) (TestSession.workflows session)
                  (Some (lit "Failed to skip clarification: " ++ statusText)))
        /\ isExecuting (ui (skipClarification (NotOk statusText) executeReply w))
           = false)
  /\ (forall instruction sessionId parseResult w,
        testSession
          (ui (proceedWithExecution instruction sessionId parseResult
                 (NotOk statusText) w))
        = Some (TestSession.mk sessionId (lit "failed") instruction (Some [])
                  (Some (lit "Failed to execute test: " ++ statusText)))
        /\ isExecuting
             (ui (proceedWithExecution instruction sessionId parseResult
                    (NotOk statusText) w))
           = false)
  /\ (forall id w,
        ui (interval_fires id (NotOk statusText) w) = ui w
        /\ timers (interval_fires id (NotOk statusText) w) = timers w).
Proof.
  split; [|split; [|split; [|split]]].
  - intros executeReply w Hm. unfold executeTest. rewrite Hm. auto.
  - intros executeReply w session question Hsel Hs Hq.
    unfold handleClarificationResponse.
    apply truthy_true_iff in Hsel. rewrite Hsel, Hs, Hq. simpl.
    unfold updateTestSession. simpl. rewrite Hs. auto.
  - intros executeReply w session Hs.
    unfold skipClarification. rewrite Hs. simpl.
    unfold updateTestSession. simpl. rewrite Hs. auto.
  - intros instruction sessionId parseResult w. auto.
  - intros id w. unfold interval_fires.
    destruct (timers w !! id) as [p|]; [|auto].
    destruct (interval_live p); auto.
Qed.

Lemma not_ok_fails_session_except_polling_witness :
  (TestSession.errorMessage <$>
     testSession (ui (executeTest (NotOk (lit "Bad Gateway")) (Ok Result.empty)
                        Sample.filled)))
  = Some (Some (lit "Failed to parse instructions: Bad Gateway"))
  /\ (TestSession.errorMessage <$>
        testSession (ui (handleClarificationResponse (NotOk (lit "Bad Gateway"))
                           (Ok Result.empty) Sample.chosen)))
     = Some (Some (lit "Failed to process clarification: Bad Gateway"))
  /\ (TestSession.errorMessage <$>
        testSession (ui (skipClarification (NotOk (lit "Bad Gateway"))
                           (Ok Result.empty) Sample.asking)))
     = Some (Some (lit "Failed to skip clarification: Bad Gateway")).
Proof.
  destruct (not_ok_fails_session_except_polling (lit "Bad Gateway"))
    as (Hparse & Hanswer & Hskip & _ & _).
  split; [|split].
  - destruct (Hparse (Ok Result.empty) Sample.filled eq_refl) as [-> _].
    reflexivity.
  - destruct (Hanswer (Ok Result.empty) Sample.chosen
                (TestSession.mk (Some (lit "s1")) (lit "needs_clarification")
                   Sample.text (Some [lit "create_l3vn"]) None)
                Sample.question ltac:(discriminate) eq_refl eq_refl) as [-> _].
    reflexivity.
  - destruct (Hskip (Ok Result.empty) Sample.asking
                (TestSession.mk (Some (lit "s1")) (lit "needs_clarification")
                   Sample.text (Some [lit "create_l3vn"]) None)
                eq_refl) as [-> _].
    reflexivity.
Defined.

(** ** The stored clarification question *)

Lemma proceedWithExecution_keeps_question
    instruction sessionId parseResult reply w :
  clarificationQuestion
    (ui (proceedWithExecution instruction sessionId parseResult reply w))
  = clarificationQuestion (ui w).
Proof.
  unfold proceedWithExecution. destruct (await_json _ reply); reflexivity.
Qed.

Lemma timers_keep_question id reply w :
  clarificationQuestion (ui (interval_fires id reply w))
  = clarificationQuestion (ui w)
  /\ clarificationQuestion (ui (timeout_fires id w))
     = clarificationQuestion (ui w).
Proof.
  split.
  - unfold interval_fires. destruct (timers w !! id) as [p|]; [|reflexivity].
    destruct (interval_live p); [|reflexivity]. unfold poll_tick.
    destruct reply as [e|st|e|status]; simpl; rewrite ?clearInterval_ui;
      try reflexivity.
    destruct (_ || _); [destruct (Result.steps status)|]; simpl;
      rewrite ?clearInterval_ui; reflexivity.
  - unfold timeout_fires. destruct (timers w !! id) as [p|] eqn:H; [|reflexivity].
    destruct (timeout_pending p); [|reflexivity]. simpl.
    rewrite clearInterval_ui. unfold timeout_done. rewrite H. reflexivity.
Qed.

(** C9, as the claim has it, fails on the failure path of an answer: the
    session is [failed] and the question is still stored. *)
Lemma failed_answer_keeps_question_counterexample :
  clarificationQuestion
    (ui (handleClarificationResponse (NotOk (lit "Bad Gateway"))
           (Ok Result.empty) Sample.chosen))
  = Some Sample.question
  /\ (TestSession.status <$>
        testSession
          (ui (handleClarificationResponse (NotOk (lit "Bad Gateway"))
                 (Ok Result.empty) Sample.chosen)))
     = Some (lit "failed")
  /\ clarificationQuestion
       (ui (handleClarificationResponse (NotOk (lit "Bad Gateway"))
              (Ok Result.empty) Sample.chosen))
     <> None.
Proof.
  split; [reflexivity|]. split; [reflexivity|]. discriminate.
Qed.

Lemma executeTest_stores_question parseReply executeReply w :
  clarificationQuestion (ui (executeTest parseReply executeReply w))
  = clarificationQuestion (ui w)
  \/ exists parseResult,
       parseReply = Ok parseResult
       /\ Result.status parseResult = Some (lit "needs_clarification")
       /\ clarificationQuestion (ui (executeTest parseReply executeReply w))
          = Result.clarification parseResult
       /\ showClarification (ui (executeTest parseReply executeReply w)) = true
       /\ testSession (ui (executeTest parseReply executeReply w))
          = Some (TestSession.mk (Result.session_id parseResult)
                    (lit "needs_clarification") (instruction (ui w))
                    (Some (or_else (Result.detected_workflows parseResult) []))
                    None).
Proof.
  unfold executeTest. destruct (missing_required (ui w)); [left; reflexivity|].
  destruct parseReply as [e|st|e|parseResult]; simpl; try (left; reflexivity).
  unfold is_literal. case_bool_decide as Hs.
  - right. exists parseResult. auto.
  - left. rewrite proceedWithExecution_keeps_question. reflexivity.
Qed.

Lemma handleClarificationResponse_discards_question
    clarificationReply executeReply w :
  clarificationQuestion
    (ui (handleClarificationResponse clarificationReply executeReply w))
  = clarificationQuestion (ui w)
  \/ (exists clarificationResult, clarificationReply = Ok clarificationResult)
     /\ clarificationQuestion
          (ui (handleClarificationResponse clarificationReply executeReply w))
        = None.
Proof.
  unfold handleClarificationResponse.
  destruct (truthy _), (testSession (ui w)), (clarificationQuestion (ui w)) eqn:Hq;
    try (left; exact Hq).
  destruct clarificationReply as [e|st|e|result]; simpl; try (left; exact Hq).
  right. split; [eauto|]. apply proceedWithExecution_keeps_question.
Qed.

Lemma skipClarification_discards_question skipReply executeReply w :
  clarificationQuestion (ui (skipClarification skipReply executeReply w))
  = clarificationQuestion (ui w)
  \/ (exists skipResult, skipReply = Ok skipResult)
     /\ clarificationQuestion (ui (skipClarification skipReply executeReply w))
        = None.
Proof.
  unfold skipClarification.
  destruct (testSession (ui w)); [|left; reflexivity].
  destruct skipReply as [e|st|e|result]; simpl; try (left; reflexivity).
  right. split; [eauto|]. apply proceedWithExecution_keeps_question.
Qed.

(** C9, amended.  The stored question changes in three ways only.  A click
    on Execute whose parse reply has status [needs_clarification] stores
    the clarification of that reply, with the session in that status and
    the dialog shown; a click on Continue, or on Use Defaults, whose
    answer is read successfully discards it; every other event, and every
    other outcome of these three, leaves it as it is.  With their guards
    passed the handlers do just that: [executeTest] stores the question of
    such a reply, and [handleClarificationResponse] and
    [skipClarification] set it to null once their reply is read.  When
    their request fails instead, [showClarification] is set to false and
    the session is [failed]. *)
Theorem clarification_question_lifetime :
  (forall e w,
     clarificationQuestion (ui (step e w)) = clarificationQuestion (ui w)
     \/ ((exists clarificationResult executeReply,
            e = ContinueClicked (Ok clarificationResult) executeReply)
         \/ (exists skipResult executeReply,
               e = UseDefaultsClicked (Ok skipResult) executeReply))
        /\ clarificationQuestion (ui (step e w)) = None
     \/ exists parseResult executeReply,
          e = ExecuteClicked (Ok parseResult) executeReply
          /\ Result.status parseResult = Some (lit "needs_clarification")
          /\ clarificationQuestion (ui (step e w))
             = Result.clarification parseResult
          /\ showClarification (ui (step e w)) = true
          /\ testSession (ui (step e w))
             = Some (TestSession.mk (Result.session_id parseResult)
                       (lit "needs_clarification") (instruction (ui w))
                       (Some (or_else (Result.detected_workflows parseResult) []))
                       None))
  /\ (forall parseResult executeReply w,
        missing_required (ui w) = false ->
        Result.status parseResult = Some (lit "needs_clarification") ->
        clarificationQuestion (ui (executeTest (Ok parseResult) executeReply w))
        = Result.clarification parseResult)
  /\ (forall clarificationResult executeReply w session question,
        selectedOption (ui w) <> [] ->
        testSession (ui w) = Some session ->
        clarificationQuestion (ui w) = Some question ->
        clarificationQuestion
          (ui (handleClarificationResponse (Ok clarificationResult) executeReply w))
        = None)
  /\ (forall skipResult executeReply w session,
        testSession (ui w) = Some session ->
        clarificationQuestion
          (ui (skipClarification (Ok skipResult) executeReply w))
        = None)
  /\ (forall clarificationReply executeReply w session question,
        selectedOption (ui w) <> [] ->
        testSession (ui w) = Some session ->
        clarificationQuestion (ui w) = Some question ->
        (forall clarificationResult,
           clarificationReply <> Ok clarificationResult) ->
        showClarification
          (ui (handleClarificationResponse clarificationReply executeReply w))
        = false
        /\ (TestSession.status <$>
              testSession
                (ui (handleClarificationResponse clarificationReply executeReply w)))
           = Some (lit "failed"))
  /\ (forall skipReply executeReply w session,
        testSession (ui w) = Some session ->
        (forall skipResult, skipReply <> Ok skipResult) ->
        showClarification (ui (skipClarification skipReply executeReply w))
        = false
        /\ (TestSession.status <$>
              testSession (ui (skipClarification skipReply executeReply w)))
           = Some (lit "failed")).
Proof.
  split; [|split; [|split; [|split; [|split]]]].
  - intros e w.
    destruct e as [v|v|v|v|v| |index|index|pr er|cr er|sr er|id reply|id];
      simpl.
    1-5: destruct (isExecuting (ui w)); auto.
    + auto.
    + destruct (showExamples (ui w)), (exampleInstructions !! index); auto.
    + destruct (dialog_question (ui w) ≫= _); auto.
    + destruct (execute_disabled (ui w)); [auto|].
      destruct (executeTest_stores_question pr er w)
        as [Hsame|(parseResult & -> & Hstored)]; [auto|].
      right. right. exists parseResult, er. auto.
    + destruct (dialog_question (ui w)); [|auto].
      destruct (_ || _); [auto|].
      destruct (handleClarificationResponse_discards_question cr er w)
        as [Hsame|[(result & ->) Hnone]]; [auto|].
      right. left. split; [|exact Hnone]. left. eauto.
    + destruct (dialog_question (ui w)); [|auto].
      destruct (isExecuting (ui w)); [auto|].
      destruct (skipClarification_discards_question sr er w)
        as [Hsame|[(result & ->) Hnone]]; [auto|].
      right. left. split; [|exact Hnone]. right. eauto.
    + left. apply timers_keep_question.
    + left. apply (timers_keep_question id (NotOk [])).
  - intros parseResult executeReply w Hm Hs.
    unfold executeTest. rewrite Hm. simpl. unfold is_literal.
    rewrite bool_decide_eq_true_2 by exact Hs. reflexivity.
  - intros clarificationResult executeReply w session question Hsel Hs Hq.
    unfold handleClarificationResponse.
    apply truthy_true_iff in Hsel. rewrite Hsel, Hs, Hq. simpl.
    apply proceedWithExecution_keeps_question.
  - intros skipResult executeReply w session Hs.
    unfold skipClarification. rewrite Hs. simpl.
    apply proceedWithExecution_keeps_question.
  - intros clarificationReply executeReply w session question Hsel Hs Hq Hfail.
    unfold handleClarificationResponse.
    apply truthy_true_iff in Hsel. rewrite Hsel, Hs, Hq.
    destruct clarificationReply as [e|st|e|result];
      [| | |destruct (Hfail result eq_refl)];
      simpl; unfold updateTestSession; simpl; rewrite Hs; auto.
  - intros skipReply executeReply w session Hs Hfail.
    unfold skipClarification. rewrite Hs.
    destruct skipReply as [e|st|e|result];
      [| | |destruct (Hfail result eq_refl)];
      simpl; unfold updateTestSession; simpl; rewrite Hs; auto.
Qed.

Lemma clarification_question_lifetime_witness :
  clarificationQuestion
    (ui (executeTest (Ok Sample.needs_clarification) (Ok Result.empty)
           Sample.filled))
  = Some Sample.question
  /\ clarificationQuestion
       (ui (handleClarificationResponse (Ok Sample.resolved) (Ok Result.empty)
              Sample.chosen))
     = None
  /\ clarificationQuestion
       (ui (skipClarification (Ok Sample.skipped) (Ok Result.empty) Sample.asking))
     = None
  /\ showClarification
       (ui (handleClarificationResponse (NotOk (lit "Bad Gateway"))
              (Ok Result.empty) Sample.chosen))
     = false
  /\ showClarification
       (ui (skipClarification (Rejected (ErrorObject (lit "Failed to fetch")))
              (Ok Result.empty) Sample.asking))
     = false.
Proof.
  destruct clarification_question_lifetime
    as (_ & Hstore & Hanswer & Hskip & Hanswer_fails & Hskip_fails).
  split; [|split; [|split; [|split]]].
  - apply (Hstore Sample.needs_clarification (Ok Result.empty) Sample.filled);
      reflexivity.
  - apply (Hanswer Sample.resolved (Ok Result.empty) Sample.chosen
             (TestSession.mk (Some (lit "s1")) (lit "needs_clarification")
                Sample.text (Some [lit "create_l3vn"]) None)
             Sample.question);
      [discriminate | reflexivity | reflexivity].
  - apply (Hskip Sample.skipped (Ok Result.empty) Sample.asking
             (TestSession.mk (Some (lit "s1")) (lit "needs_clarification")
                Sample.text (Some [lit "create_l3vn"]) None)).
    reflexivity.
  - apply (Hanswer_fails (NotOk (lit "Bad Gateway")) (Ok Result.empty)
             Sample.chosen
             (TestSession.mk (Some (lit "s1")) (lit "needs_clarification")
                Sample.text (Some [lit "create_l3vn"]) None)
             Sample.question);
      [discriminate | reflexivity | reflexivity | discriminate].
  - apply (Hskip_fails (Rejected (ErrorObject (lit "Failed to fetch")))
             (Ok Result.empty) Sample.asking
             (TestSession.mk (Some (lit "s1")) (lit "needs_clarification")
                Sample.text (Some [lit "create_l3vn"]) None));
      [reflexivity | discriminate].
Defined.

(** ** A whole run *)

(** From the initial state the form is filled in and submitted, the parse
    reply is [created], the test plan is accepted, and the status replies
    are [executing] twice and then [completed] with one step: the session
    ends [completed] with one step shown and the component no longer
    showing as executing; the cleared interval issues no fourth status
    request. *)
Example run_to_completion :
  let w :=
    run [ InstructionChanged
            (lit "create network hierarchy with area 'TestArea' and building 'TestBuilding'");
          IpChanged (lit "192.168.1.100");
          UsernameChanged (lit "admin");
          PasswordChanged (lit "x");
          ExecuteClicked (Ok Sample.created) (Ok Result.empty);
          IntervalFired 0 (Sample.feed 0);
          IntervalFired 0 (Sample.feed 1);
          IntervalFired 0 (Sample.feed 2);
          IntervalFired 0 (Sample.feed 3) ] initialWorld in
  (TestSession.status <$> testSession (ui w)) = Some (lit "completed")
  /\ length (executionSteps (ui w)) = 1
  /\ isExecuting (ui w) = false
  /\ status_requests w = 3
  /\ execute_requests w = [Fetch (ExecuteTestPlan (Some (lit "s1")))].
Proof. vm_compute. repeat split. Qed.

(** * Further properties of the handlers *)

(** ** Submission *)



(** X2.  When the parse request fails by an exception, thrown by [fetch] or
    by [json()], the session is stored under the id [error], failed, without
    workflows and with the message of the exception, or with [Unknown error
    occurred] if what was thrown is not an [Error]; the parse request is the
    only request issued and no timer is registered. *)
Theorem executeTest_parse_exception
    (parseReply executeReply : Reply) (e : Thrown) (w : World) :
  missing_required (ui w) = false ->
  parseReply = Rejected e \/ parseReply = OkBadBody e ->
  testSession (ui (executeTest parseReply executeReply w))
  = Some (TestSession.mk (Some (lit "error")) (lit "failed")
            (instruction (ui w)) (Some [])
            (Some (match e with
                   | ErrorObject message => message
                   | NonError => lit "Unknown error occurred"
                   end)))
  /\ isExecuting (ui (executeTest parseReply executeReply w)) = false
  /\ effects (executeTest parseReply executeReply w)
     = effects w ++ [Fetch (parse_request (ui w))]
  /\ timers (executeTest parseReply executeReply w) = timers w.
Proof.
  intros Hm [-> | ->]; unfold executeTest; rewrite Hm; simpl;
    destruct e; auto.
Qed.

Lemma executeTest_parse_exception_witness :
  (TestSession.errorMessage <$>
     testSession (ui (executeTest (Rejected (ErrorObject (lit "Failed to fetch")))
                        (Ok Result.empty) Sample.filled)))
  = Some (Some (lit "Failed to fetch"))
  /\ (TestSession.errorMessage <$>
        testSession (ui (executeTest (OkBadBody NonError)
                           (Ok Result.empty) Sample.filled)))
     = Some (Some (lit "Unknown error occurred")).
Proof.
  split.
  - destruct (executeTest_parse_exception
                (Rejected (ErrorObject (lit "Failed to fetch")))
                (Ok Result.empty) (ErrorObject (lit "Failed to fetch"))
                Sample.filled eq_refl (or_introl eq_refl)) as [-> _].
    reflexivity.
  - destruct (executeTest_parse_exception (OkBadBody NonError)
                (Ok Result.empty) NonError Sample.filled eq_refl
                (or_intror eq_refl)) as [-> _].
    reflexivity.
Defined.

(** A firing of a registered interval issues one status request, for the
    session id of its poller, and nothing else. *)
Lemma interval_fires_effects id p reply w :
  timers w !! id = Some p -> interval_live p = true ->
  effects (interval_fires id reply w)
  = effects w ++ [Fetch (GetSessionStatus (poll_sessionId p))].
Proof.
  intros H Hl. unfold interval_fires. rewrite H, Hl. unfold poll_tick.
  destruct reply as [e|st|e|status]; simpl; rewrite ?clearInterval_effects;
    try reflexivity.
  destruct (_ || _); [destruct (Result.steps status)|]; simpl;
    rewrite ?clearInterval_effects; reflexivity.
Qed.

(** X3.  The session id of the parse reply is the one the client goes on
    with: when no clarification is asked for and the test plan is accepted,
    the execute request, the poller registered and every status request the
    poller then issues carry that id. *)
Theorem session_id_threads
    (parseResult body : Result.t) (reply : Reply) (w : World) :
  missing_required (ui w) = false ->
  Result.status parseResult <> Some (lit "needs_clarification") ->
  effects (executeTest (Ok parseResult) (Ok body) w)
  = effects w ++ [Fetch (parse_request (ui w));
                  Fetch (ExecuteTestPlan (Result.session_id parseResult))]
  /\ timers (executeTest (Ok parseResult) (Ok body) w)
     = timers w ++ [mkPoller (Result.session_id parseResult)
                      (instruction (ui w)) true true]
  /\ effects (interval_fires (length (timers w)) reply
                (executeTest (Ok parseResult) (Ok body) w))
     = effects (executeTest (Ok parseResult) (Ok body) w)
       ++ [Fetch (GetSessionStatus (Result.session_id parseResult))].
Proof.
  intros Hm Hs.
  assert (Ht : timers (executeTest (Ok parseResult) (Ok body) w)
               = timers w ++ [mkPoller (Result.session_id parseResult)
                                (instruction (ui w)) true true]).
  { unfold executeTest. rewrite Hm. simpl. unfold is_literal.
    rewrite bool_decide_eq_false_2 by exact Hs. reflexivity. }
  split; [|split; [exact Ht|]].
  - unfold executeTest. rewrite Hm. simpl. unfold is_literal.
    rewrite bool_decide_eq_false_2 by exact Hs.
    rewrite proceedWithExecution_effects. simpl.
    rewrite <- app_assoc. reflexivity.
  - apply (interval_fires_effects _ (mkPoller (Result.session_id parseResult)
                                       (instruction (ui w)) true true));
      [|reflexivity].
    rewrite Ht. apply list_lookup_middle. reflexivity.
Qed.

Lemma session_id_threads_witness :
  effects (interval_fires 0 (Ok Sample.executing) Sample.running)
  = [ Fetch (ParseTestInstructions Sample.text (lit "https://192.168.1.100")
               (lit "admin") (lit "x"));
      Fetch (ExecuteTestPlan (Some (lit "s1")));
      Fetch (GetSessionStatus (Some (lit "s1"))) ].
Proof.
  destruct (session_id_threads Sample.created Result.empty (Ok Sample.executing)
              Sample.filled eq_refl ltac:(discriminate)) as (He & _ & Hp).
  unfold Sample.running.
  change 0 with (length (timers Sample.filled)).
  rewrite Hp, He. reflexivity.
Defined.

(** X4.  On a direct execution the workflows the parse reply reports as
    detected are not used: the outcome is the same whatever that field
    holds. *)
Theorem direct_execution_ignores_detected_workflows
    (parseResult : Result.t) (detected : option (list jsstring))
    (executeReply : Reply) (w : World) :
  Result.status parseResult <> Some (lit "needs_clarification") ->
  executeTest (Ok (with_detected_workflows detected parseResult)) executeReply w
  = executeTest (Ok parseResult) executeReply w.
Proof.
  intros Hs. unfold executeTest.
  destruct (missing_required (ui w)); [reflexivity|]. simpl.
  unfold is_literal. rewrite !bool_decide_eq_false_2 by exact Hs.
  reflexivity.
Qed.

Lemma direct_execution_ignores_detected_workflows_witness :
  (TestSession.workflows <$>
     testSession
       (ui (executeTest
              (Ok (with_detected_workflows (Some [lit "create_l3vn"]) Sample.created))
              (Ok Result.empty) Sample.filled)))
  = Some (Some []).
Proof.
  rewrite (direct_execution_ignores_detected_workflows Sample.created
             (Some [lit "create_l3vn"]) (Ok Result.empty) Sample.filled
             ltac:(discriminate)).
  reflexivity.
Defined.

(** ** Answering and skipping *)

(** X5.  [handleClarificationResponse] raises its alert, and does nothing
    else, exactly when no option is selected, no session is stored or no
    question is stored. Otherwise it posts the selected value with the type
    of the stored question and the id of the stored session; the test plan
    of that session is then executed if the answer is read successfully, and
    no further request is issued if it is not. *)
Theorem handleClarificationResponse_request
    (clarificationReply executeReply : Reply) (w : World) :
  (selectedOption (ui w) = [] \/ testSession (ui w) = None
   \/ clarificationQuestion (ui w) = None ->
   handleClarificationResponse clarificationReply executeReply w
   = perform (Alert (lit "Please select an option")) w)
  /\ (forall session question,
        selectedOption (ui w) <> [] ->
        testSession (ui w) = Some session ->
        clarificationQuestion (ui w) = Some question ->
        (forall clarificationResult,
           clarificationReply = Ok clarificationResult ->
           effects (handleClarificationResponse clarificationReply executeReply w)
           = effects w
             ++ [Fetch (ProvideClarification (TestSession.sessionId session)
                          (ClarificationQuestion.type question)
                          (selectedOption (ui w)));
                 Fetch (ExecuteTestPlan (TestSession.sessionId session))])
        /\ ((forall clarificationResult,
               clarificationReply <> Ok clarificationResult) ->
            effects (handleClarificationResponse clarificationReply executeReply w)
            = effects w
              ++ [Fetch (ProvideClarification (TestSession.sessionId session)
                           (ClarificationQuestion.type question)
                           (selectedOption (ui w)))]
            /\ timers (handleClarificationResponse clarificationReply executeReply w)
               = timers w)).
Proof.
  split.
  - unfold handleClarificationResponse. intros [H|[H|H]].
    + rewrite H. reflexivity.
    + rewrite H. destruct (truthy _); reflexivity.
    + rewrite H. destruct (truthy _), (testSession (ui w)); reflexivity.
  - intros session question Hsel Hs Hq.
    apply truthy_true_iff in Hsel.
    unfold handleClarificationResponse. rewrite Hsel, Hs, Hq. split.
    + intros clarificationResult ->. simpl.
      rewrite proceedWithExecution_effects. simpl.
      rewrite <- app_assoc. reflexivity.
    + intros Hfail.
      destruct clarificationReply as [e|st|e|r]; simpl; auto.
      destruct (Hfail r eq_refl).
Qed.

Lemma handleClarificationResponse_request_witness :
  effects (handleClarificationResponse (Ok Sample.resolved) (Ok Result.empty)
             Sample.chosen)
  = effects Sample.chosen
    ++ [Fetch (ProvideClarification (Some (lit "s1")) (lit "fabric_selection")
                 (lit "a"));
        Fetch (ExecuteTestPlan (Some (lit "s1")))]
  /\ effects (handleClarificationResponse (NotOk (lit "Bad Gateway"))
                (Ok Result.empty) Sample.chosen)
     = effects Sample.chosen
       ++ [Fetch (ProvideClarification (Some (lit "s1")) (lit "fabric_selection")
                    (lit "a"))].
Proof.
  split.
  - destruct (handleClarificationResponse_request (Ok Sample.resolved)
                (Ok Result.empty) Sample.chosen) as [_ H].
    destruct (H (TestSession.mk (Some (lit "s1")) (lit "needs_clarification")
                   Sample.text (Some [lit "create_l3vn"]) None)
                Sample.question ltac:(discriminate) eq_refl eq_refl) as [Hok _].
    exact (Hok Sample.resolved eq_refl).
  - destruct (handleClarificationResponse_request (NotOk (lit "Bad Gateway"))
                (Ok Result.empty) Sample.chosen) as [_ H].
    destruct (H (TestSession.mk (Some (lit "s1")) (lit "needs_clarification")
                   Sample.text (Some [lit "create_l3vn"]) None)
                Sample.question ltac:(discriminate) eq_refl eq_refl) as [_ Hfail].
    destruct Hfail as [He _]; [discriminate | exact He].
Defined.

(** X6.  [skipClarification] without a stored session does nothing at all,
    not even an alert. With one it posts to the skip address of that
    session, whether or not a question is stored or an option selected; the
    test plan is then executed if the skip is read successfully, and no
    further request is issued if it is not. *)
Theorem skipClarification_request (skipReply executeReply : Reply) (w : World) :
  (testSession (ui w) = None ->
   skipClarification skipReply executeReply w = w)
  /\ (forall session,
        testSession (ui w) = Some session ->
        (forall skipResult,
           skipReply = Ok skipResult ->
           effects (skipClarification skipReply executeReply w)
           = effects w
             ++ [Fetch (SkipClarification (TestSession.sessionId session));
                 Fetch (ExecuteTestPlan (TestSession.sessionId session))])
        /\ ((forall skipResult, skipReply <> Ok skipResult) ->
            effects (skipClarification skipReply executeReply w)
            = effects w
              ++ [Fetch (SkipClarification (TestSession.sessionId session))]
            /\ timers (skipClarification skipReply executeReply w) = timers w)
        /\ forall id,
             TestSession.sessionId session = Some id ->
             endpoint (SkipClarification (TestSession.sessionId session))
             = lit "http://localhost:8000/api/v1/session/" ++ id
               ++ lit "/skip_clarification").
Proof.
  split.
  - intros H. unfold skipClarification. rewrite H. reflexivity.
  - intros session Hs. unfold skipClarification. rewrite Hs.
    split; [|split].
    + intros skipResult ->. simpl.
      rewrite proceedWithExecution_effects. simpl.
      rewrite <- app_assoc. reflexivity.
    + intros Hfail.
      destruct skipReply as [e|st|e|r]; simpl; auto.
      destruct (Hfail r eq_refl).
    + intros id ->. reflexivity.
Qed.

Lemma skipClarification_request_witness :
  skipClarification (Ok Sample.skipped) (Ok Result.empty) Sample.filled
  = Sample.filled
  /\ effects (skipClarification (Ok Sample.skipped) (Ok Result.empty) Sample.asking)
     = effects Sample.asking
       ++ [Fetch (SkipClarification (Some (lit "s1")));
           Fetch (ExecuteTestPlan (Some (lit "s1")))].
Proof.
  split.
  - apply (proj1 (skipClarification_request _ _ Sample.filled)). reflexivity.
  - destruct (proj2 (skipClarification_request (Ok Sample.skipped)
                       (Ok Result.empty) Sample.asking)
                (TestSession.mk (Some (lit "s1")) (lit "needs_clarification")
                   Sample.text (Some [lit "create_l3vn"]) None) eq_refl)
      as (Hok & _).
    exact (Hok Sample.skipped eq_refl).
Defined.

(** X7.  After an answer that is read successfully the session is [parsing]
    with the [updated_workflows] of the answer, the selection is cleared and
    the dialog closed. When the test plan is then accepted the session is
    [executing]; its workflows are the [workflows] of the answer if it has
    that field and its [updated_workflows] otherwise, and its command is the
    instruction in the form at the time of the click, not the command of the
    session that was clarified. *)
Theorem answer_resolves_session
    (clarificationResult body : Result.t) (w : World)
    (session : TestSession.t) (question : ClarificationQuestion.t) :
  selectedOption (ui w) <> [] ->
  testSession (ui w) = Some session ->
  clarificationQuestion (ui w) = Some question ->
  ui (clarification_resolved clarificationResult
        (w |> setState (setIsExecuting true)
           |> perform (Fetch (ProvideClarification (TestSession.sessionId session)
                                (ClarificationQuestion.type question)
                                (selectedOption (ui w))))))
  = mkState (instruction (ui w)) (clusterConfig (ui w)) true
      (Some (TestSession.mk (TestSession.sessionId session) (lit "parsing")
               (TestSession.command session)
               (Result.updated_workflows clarificationResult)
               (TestSession.errorMessage session)))
      (executionSteps (ui w)) (showExamples (ui w)) false None []
  /\ testSession
       (ui (handleClarificationResponse (Ok clarificationResult) (Ok body) w))
     = Some (TestSession.mk (TestSession.sessionId session) (lit "executing")
               (instruction (ui w))
               (Some (match Result.workflows clarificationResult with
                      | Some list => list
                      | None =>
                          match Result.updated_workflows clarificationResult with
                          | Some list => list
                          | None => []
                          end
                      end))
               None)
  /\ selectedOption
       (ui (handleClarificationResponse (Ok clarificationResult) (Ok body) w))
     = []
  /\ timers (handleClarificationResponse (Ok clarificationResult) (Ok body) w)
     = timers w ++ [mkPoller (TestSession.sessionId session)
                      (instruction (ui w)) true true].
Proof.
  intros Hsel Hs Hq. apply truthy_true_iff in Hsel. split.
  - unfold clarification_resolved, updateTestSession. simpl. rewrite Hs.
    reflexivity.
  - unfold handleClarificationResponse. rewrite Hsel, Hs, Hq. simpl.
    auto.
Qed.

Lemma answer_resolves_session_witness :
  testSession
    (ui (handleClarificationResponse (Ok Sample.resolved) (Ok Result.empty)
           (step (InstructionChanged (lit "create L3VN for fabric A"))
              Sample.chosen)))
  = Some (TestSession.mk (Some (lit "s1")) (lit "executing")
            (lit "create L3VN for fabric A") (Some [lit "create_l3vn"]) None).
Proof.
  destruct (answer_resolves_session Sample.resolved Result.empty
              (step (InstructionChanged (lit "create L3VN for fabric A"))
                 Sample.chosen)
              (TestSession.mk (Some (lit "s1")) (lit "needs_clarification")
                 Sample.text (Some [lit "create_l3vn"]) None)
              Sample.question ltac:(discriminate) eq_refl eq_refl)
    as (_ & H & _).
  exact H.
Defined.

(** ** What the handlers and the timers leave alone *)

Lemma timeout_done_ui id w : ui (timeout_done id w) = ui w.
Proof. unfold timeout_done. destruct (timers w !! id); reflexivity. Qed.

Ltac handler_cases :=
  unfold executeTest, handleClarificationResponse, skipClarification,
    proceedWithExecution, clarification_resolved, skip_resolved,
    interval_fires, timeout_fires, poll_tick;
  simpl;
  repeat (case_match; simpl in *; try discriminate);
  rewrite ?clearInterval_ui, ?timeout_done_ui; simpl;
  rewrite ?clearInterval_ui, ?timeout_done_ui.

(** X8.  The selected option is changed by choosing an option, and reset by
    an answer that is read successfully; nothing else touches it: no
    submission, no skip, no failed answer and no timer. *)
Theorem selectedOption_reset_only_by_answer (e : Event) (w : World) :
  selectedOption (ui (step e w)) = selectedOption (ui w)
  \/ (exists index, e = OptionChosen index)
  \/ (exists clarificationResult executeReply,
        e = ContinueClicked (Ok clarificationResult) executeReply
        /\ selectedOption (ui (step e w)) = []).
Proof.
  destruct e as [v|v|v|v|v| |index|index|pr er|cr er|sr er|id reply|id].
  1-7: left; simpl; repeat case_match; reflexivity.
  - right. left. eauto.
  - left. simpl. destruct (execute_disabled (ui w)); [reflexivity|].
    handler_cases; reflexivity.
  - simpl. destruct (dialog_question (ui w)); [|auto].
    destruct (_ || _); [auto|].
    destruct cr as [e|st|e|r].
    1-3: left; handler_cases; reflexivity.
    assert (Hcases :
      selectedOption (ui (handleClarificationResponse (Ok r) er w))
      = selectedOption (ui w)
      \/ selectedOption (ui (handleClarificationResponse (Ok r) er w)) = []).
    { handler_cases; auto. }
    destruct Hcases as [Hsame|Hreset]; [left; exact Hsame|].
    right. right. exists r, er. auto.
  - left. simpl. handler_cases; reflexivity.
  - left. simpl. handler_cases; reflexivity.
  - left. simpl. handler_cases; reflexivity.
Qed.

(** X9.  The form is changed by typing into it and by picking an example,
    and by nothing else: no handler and no timer changes the instruction or
    the cluster configuration, whatever the replies. *)
Theorem form_changed_only_by_edits (e : Event) (w : World) :
  edits_form e = false ->
  instruction (ui (step e w)) = instruction (ui w)
  /\ clusterConfig (ui (step e w)) = clusterConfig (ui w).
Proof.
  destruct e as [v|v|v|v|v| |index|index|pr er|cr er|sr er|id reply|id];
    simpl; try discriminate; intros _.
  - auto.
  - repeat case_match; auto.
  - destruct (execute_disabled (ui w)); [auto|].
    handler_cases; auto.
  - handler_cases; auto.
  - handler_cases; auto.
  - handler_cases; auto.
  - handler_cases; auto.
Qed.

Lemma form_changed_only_by_edits_witness :
  instruction
    (ui (step (IntervalFired 0 (Ok Sample.completed)) Sample.running))
  = Sample.text
  /\ clusterConfig
       (ui (step (IntervalFired 0 (Ok Sample.completed)) Sample.running))
     = Sample.cluster.
Proof.
  apply (form_changed_only_by_edits (IntervalFired 0 (Ok Sample.completed))
           Sample.running eq_refl).
Defined.

(** X10.  A choice outlives a failed answer. With the dialog open and an
    option chosen, let the answer fail and the form be submitted again; if
    the service asks for a clarification again, Continue sends, without any
    new choice being made, the option chosen for the first question,
    together with the type of the new question and the id of the new
    session. *)
Theorem stale_choice_is_sent
    (failing reply executeReply executeReply' : Reply)
    (parseResult : Result.t) (question question' : ClarificationQuestion.t)
    (session : TestSession.t) (w : World) :
  showClarification (ui w) = true ->
  clarificationQuestion (ui w) = Some question ->
  testSession (ui w) = Some session ->
  selectedOption (ui w) <> [] ->
  isExecuting (ui w) = false ->
  missing_required (ui w) = false ->
  (forall clarificationResult, failing <> Ok clarificationResult) ->
  Result.status parseResult = Some (lit "needs_clarification") ->
  Result.clarification parseResult = Some question' ->
  exists rest,
    effects (run [ContinueClicked failing executeReply;
                  ExecuteClicked (Ok parseResult) executeReply;
                  ContinueClicked reply executeReply'] w)
    = effects w
      ++ Fetch (ProvideClarification (TestSession.sessionId session)
                  (ClarificationQuestion.type question) (selectedOption (ui w)))
      :: Fetch (parse_request (ui w))
      :: Fetch (ProvideClarification (Result.session_id parseResult)
                  (ClarificationQuestion.type question') (selectedOption (ui w)))
      :: rest.
Proof.
  intros Hshow Hq Hs Hsel Hex Hm Hfail Hst Hq'.
  apply truthy_true_iff in Hsel.
  assert (Herr : exists error,
    await_json (lit "Failed to process clarification: ") failing = inl error).
  { destruct failing as [e|st|e|r]; simpl; eauto. destruct (Hfail r eq_refl). }
  destruct Herr as [error Herr].
  change (run [ContinueClicked failing executeReply;
               ExecuteClicked (Ok parseResult) executeReply;
               ContinueClicked reply executeReply'] w)
    with (step (ContinueClicked reply executeReply')
            (step (ExecuteClicked (Ok parseResult) executeReply)
               (step (ContinueClicked failing executeReply) w))).
  (* the failed answer *)
  assert (H1 : step (ContinueClicked failing executeReply) w
    = w |> setState (setIsExecuting true)
        |> perform (Fetch (ProvideClarification (TestSession.sessionId session)
                             (ClarificationQuestion.type question)
                             (selectedOption (ui w))))
        |> setState (setTestSession (Some (TestSession.mk
             (TestSession.sessionId session) (lit "failed")
             (TestSession.command session) (TestSession.workflows session)
             (Some (message_of error (lit "Clarification failed"))))))
        |> setState (setIsExecuting false)
        |> setState (setShowClarification false)).
  { simpl. unfold dialog_question. rewrite Hshow, Hq, Hsel, Hex. simpl.
    unfold handleClarificationResponse. rewrite Hsel, Hs, Hq, Herr.
    unfold updateTestSession, setState. simpl. rewrite Hs. reflexivity. }
  rewrite H1. clear H1.
  (* the second submission *)
  match goal with |- context [step (ExecuteClicked ?a ?b) ?x] =>
    assert (H2 : step (ExecuteClicked a b) x
      = x |> setState (setIsExecuting true)
          |> setState (setTestSession None)
          |> setState (setExecutionSteps [])
          |> setState (setShowClarification false)
          |> perform (Fetch (parse_request (ui w)))
          |> setState (setClarificationQuestion (Some question'))
          |> setState (setShowClarification true)
          |> setState (setTestSession (Some (TestSession.mk
               (Result.session_id parseResult) (lit "needs_clarification")
               (instruction (ui w))
               (Some (or_else (Result.detected_workflows parseResult) [])) None)))
          |> setState (setIsExecuting false))
  end.
  { simpl. unfold execute_disabled. simpl.
    change (missing_required _) with (missing_required (ui w)). rewrite Hm.
    simpl. unfold executeTest. simpl.
    change (missing_required _) with (missing_required (ui w)). rewrite Hm.
    unfold is_literal. rewrite bool_decide_eq_true_2 by exact Hst.
    rewrite Hq'. reflexivity. }
  rewrite H2. clear H2.
  (* Continue, with nothing chosen anew *)
  simpl. unfold dialog_question. simpl. rewrite Hsel. simpl.
  unfold handleClarificationResponse. simpl. rewrite Hsel.
  destruct (await_json _ reply) as [error'|clarificationResult].
  - eexists. simpl. rewrite <- !app_assoc. reflexivity.
  - rewrite proceedWithExecution_effects. simpl.
    eexists. rewrite <- !app_assoc. reflexivity.
Qed.

Lemma stale_choice_is_sent_witness :
  exists rest,
    effects (run [ContinueClicked (NotOk (lit "Bad Gateway")) (Ok Result.empty);
                  ExecuteClicked (Ok Sample.needs_clarification) (Ok Result.empty);
                  ContinueClicked (Ok Sample.resolved) (Ok Result.empty)]
               Sample.chosen)
    = effects Sample.chosen
      ++ Fetch (ProvideClarification (Some (lit "s1")) (lit "fabric_selection")
                  (lit "a"))
      :: Fetch (parse_request (ui Sample.chosen))
      :: Fetch (ProvideClarification (Some (lit "s1")) (lit "fabric_selection")
                  (lit "a"))
      :: rest.
Proof.
  apply (stale_choice_is_sent (NotOk (lit "Bad Gateway")) (Ok Sample.resolved)
           (Ok Result.empty) (Ok Result.empty) Sample.needs_clarification
           Sample.question Sample.question
           (TestSession.mk (Some (lit "s1")) (lit "needs_clarification")
              Sample.text (Some [lit "create_l3vn"]) None)
           Sample.chosen);
    try reflexivity; discriminate.
Defined.

(** ** More on the timers *)



Lemma clearInterval_lookup_ne id j w :
  id <> j -> timers (clearInterval id w) !! j = timers w !! j.
Proof.
  intros Hne. unfold clearInterval.
  destruct (timers w !! id); [|reflexivity]. simpl.
  apply list_lookup_insert_ne. exact Hne.
Qed.

Lemma timeout_done_lookup_ne id j w :
  id <> j -> timers (timeout_done id w) !! j = timers w !! j.
Proof.
  intros Hne. unfold timeout_done.
  destruct (timers w !! id); [|reflexivity]. simpl.
  apply list_lookup_insert_ne. exact Hne.
Qed.

(** X12.  The timeout of one polling run reaches into the next. It is never
    cancelled, so when it comes due, also long after its own interval was
    cleared, it resets [isExecuting] while the interval of another poller
    stays registered: that poller goes on polling, and the Execute button is
    enabled again as soon as the form is complete. *)
Theorem timeout_resets_isExecuting_of_other_run
    (id id' : nat) (p : Poller) (w : World) :
  timers w !! id = Some p -> timeout_pending p = true ->
  id <> id' -> polling id' w ->
  polling id' (timeout_fires id w)
  /\ isExecuting (ui (timeout_fires id w)) = false
  /\ execute_disabled (ui (timeout_fires id w)) = missing_required (ui w).
Proof.
  intros H Hp Hne (p' & H' & Hl').
  unfold timeout_fires. rewrite H, Hp. split; [|split].
  - exists p'. split; [|exact Hl']. simpl.
    rewrite clearInterval_lookup_ne, timeout_done_lookup_ne by exact Hne.
    exact H'.
  - reflexivity.
  - unfold execute_disabled. simpl.
    rewrite clearInterval_ui, timeout_done_ui. reflexivity.
Qed.

Lemma timeout_resets_isExecuting_of_other_run_witness :
  polling 1 (timeout_fires 0 Sample.second_run)
  /\ isExecuting (ui (timeout_fires 0 Sample.second_run)) = false
  /\ execute_disabled (ui (timeout_fires 0 Sample.second_run)) = false.
Proof.
  apply (timeout_resets_isExecuting_of_other_run 0 1
           (mkPoller (Some (lit "s1")) Sample.text false true)
           Sample.second_run eq_refl eq_refl ltac:(discriminate)).
  exists Sample.poller. split; reflexivity.
Defined.

Lemma winds_down_refl p : winds_down p p.
Proof. repeat split; auto. Qed.

Lemma clearInterval_winds_down id j p w :
  timers w !! j = Some p ->
  exists p', timers (clearInterval id w) !! j = Some p' /\ winds_down p p'.
Proof.
  intros H. destruct (decide (id = j)) as [->|Hne].
  - rewrite (clearInterval_lookup j p w H). eexists. split; [reflexivity|].
    repeat split; simpl; auto; discriminate.
  - rewrite clearInterval_lookup_ne by exact Hne.
    exists p. split; [exact H | apply winds_down_refl].
Qed.

Lemma timeout_done_winds_down id j p w :
  timers w !! j = Some p ->
  exists p', timers (timeout_done id w) !! j = Some p' /\ winds_down p p'.
Proof.
  intros H. destruct (decide (id = j)) as [->|Hne].
  - rewrite (timeout_done_lookup j p w H). eexists. split; [reflexivity|].
    repeat split; simpl; auto; discriminate.
  - rewrite timeout_done_lookup_ne by exact Hne.
    exists p. split; [exact H | apply winds_down_refl].
Qed.

Lemma winds_down_trans p p' p'' :
  winds_down p p' -> winds_down p' p'' -> winds_down p p''.
Proof.
  intros (H1 & H2 & H3 & H4) (H1' & H2' & H3' & H4').
  repeat split; [congruence | congruence | auto | auto].
Qed.

Lemma proceedWithExecution_timers instruction sessionId parseResult reply w :
  timers (proceedWithExecution instruction sessionId parseResult reply w)
  = timers w
  \/ timers (proceedWithExecution instruction sessionId parseResult reply w)
     = timers w ++ [mkPoller sessionId instruction true true].
Proof.
  unfold proceedWithExecution. destruct (await_json _ reply); auto.
Qed.

(** A handler leaves the pollers registered before as they are, and
    registers at most one more. *)
Lemma handlers_append_timers w :
  (forall parseReply executeReply,
     exists new, timers (executeTest parseReply executeReply w) = timers w ++ new
                 /\ length new <= 1)
  /\ (forall clarificationReply executeReply,
        exists new,
          timers (handleClarificationResponse clarificationReply executeReply w)
          = timers w ++ new /\ length new <= 1)
  /\ (forall skipReply executeReply,
        exists new,
          timers (skipClarification skipReply executeReply w) = timers w ++ new
          /\ length new <= 1).
Proof.
  assert (Hnone : exists new : list Poller,
            timers w = timers w ++ new /\ length new <= 1).
  { exists []. rewrite app_nil_r. auto. }
  assert (Hproceed : forall instruction sessionId parseResult reply w',
    timers w' = timers w ->
    exists new,
      timers (proceedWithExecution instruction sessionId parseResult reply w')
      = timers w ++ new /\ length new <= 1).
  { intros instruction sessionId parseResult reply w' Hw'.
    destruct (proceedWithExecution_timers instruction sessionId parseResult
                reply w') as [-> | ->]; rewrite Hw'.
    - exact Hnone.
    - eexists. split; [reflexivity | simpl; lia]. }
  split; [|split].
  - intros parseReply executeReply. unfold executeTest.
    destruct (missing_required (ui w)); [exact Hnone|].
    destruct (await_json _ parseReply); [exact Hnone|].
    destruct (is_literal _ _); [exact Hnone|].
    apply Hproceed. reflexivity.
  - intros clarificationReply executeReply. unfold handleClarificationResponse.
    destruct (truthy _), (testSession (ui w)), (clarificationQuestion (ui w));
      try exact Hnone.
    destruct (await_json _ clarificationReply); [exact Hnone|].
    apply Hproceed. reflexivity.
  - intros skipReply executeReply. unfold skipClarification.
    destruct (testSession (ui w)); [|exact Hnone].
    destruct (await_json _ skipReply); [exact Hnone|].
    apply Hproceed. reflexivity.
Qed.

Lemma interval_fires_winds_down id j p reply w :
  timers w !! j = Some p ->
  exists p', timers (interval_fires id reply w) !! j = Some p'
             /\ winds_down p p'.
Proof.
  intros H.
  assert (Hsame : exists p', timers w !! j = Some p' /\ winds_down p p').
  { exists p. split; [exact H | apply winds_down_refl]. }
  unfold interval_fires. destruct (timers w !! id) as [q|]; [|exact Hsame].
  destruct (interval_live q); [|exact Hsame]. unfold poll_tick.
  destruct reply as [e|st|e|status]; simpl; try exact Hsame.
  - apply (clearInterval_winds_down id j p (perform _ w)), H.
  - apply (clearInterval_winds_down id j p (perform _ w)), H.
  - destruct (_ || _); [|exact Hsame].
    destruct (Result.steps status); simpl;
      apply (clearInterval_winds_down id j p (setState _ (perform _ w))), H.
Qed.

Lemma timeout_fires_winds_down id j p w :
  timers w !! j = Some p ->
  exists p', timers (timeout_fires id w) !! j = Some p' /\ winds_down p p'.
Proof.
  intros H.
  assert (Hsame : exists p', timers w !! j = Some p' /\ winds_down p p').
  { exists p. split; [exact H | apply winds_down_refl]. }
  unfold timeout_fires. destruct (timers w !! id) as [q|]; [|exact Hsame].
  destruct (timeout_pending q); [|exact Hsame]. simpl.
  destruct (timeout_done_winds_down id j p w H) as (p1 & H1 & Hw1).
  destruct (clearInterval_winds_down id j p1 _ H1) as (p2 & H2 & Hw2).
  exists p2. split; [exact H2 | eapply winds_down_trans; eassumption].
Qed.

(** X13.  Timers only wind down. Whatever happens, a poller stays registered
    under its number with the session id and the instruction it was started
    with; an interval that was cleared and a timeout that has fired never
    come back; and one event registers at most one new poller. *)
Theorem timers_only_wind_down (e : Event) (w : World) :
  (forall id p,
     timers w !! id = Some p ->
     exists p', timers (step e w) !! id = Some p' /\ winds_down p p')
  /\ length (timers w) <= length (timers (step e w)) <= S (length (timers w)).
Proof.
  assert (Happ : forall w',
    (exists new, timers w' = timers w ++ new /\ length new <= 1) ->
    (forall id p,
       timers w !! id = Some p ->
       exists p', timers w' !! id = Some p' /\ winds_down p p')
    /\ length (timers w) <= length (timers w') <= S (length (timers w))).
  { intros w' (new & Hw' & Hlen). split.
    - intros id p H. exists p. split; [|apply winds_down_refl].
      rewrite Hw'. apply lookup_app_l_Some, H.
    - rewrite Hw', length_app. lia. }
  assert (Hsame : forall w', timers w' = timers w ->
    (forall id p,
       timers w !! id = Some p ->
       exists p', timers w' !! id = Some p' /\ winds_down p p')
    /\ length (timers w) <= length (timers w') <= S (length (timers w))).
  { intros w' Hw'. apply Happ. exists []. rewrite app_nil_r. auto. }
  destruct (handlers_append_timers w) as (Hexec & Hanswer & Hskip).
  destruct e as [v|v|v|v|v| |index|index|pr er|cr er|sr er|id reply|id]; simpl.
  1-8: apply Hsame; repeat case_match; reflexivity.
  - destruct (execute_disabled (ui w)); [apply Hsame; reflexivity|].
    apply Happ, Hexec.
  - destruct (dialog_question (ui w)); [|apply Hsame; reflexivity].
    destruct (_ || _); [apply Hsame; reflexivity|].
    apply Happ, Hanswer.
  - destruct (dialog_question (ui w)); [|apply Hsame; reflexivity].
    destruct (isExecuting (ui w)); [apply Hsame; reflexivity|].
    apply Happ, Hskip.
  - assert (Hlen : length (timers (interval_fires id reply w))
                   = length (timers w)).
    { unfold interval_fires. destruct (timers w !! id) as [q|]; [|reflexivity].
      destruct (interval_live q); [|reflexivity]. unfold poll_tick.
      unfold clearInterval.
      repeat case_match; simpl; rewrite ?length_insert; reflexivity. }
    split; [|lia]. intros j p. apply interval_fires_winds_down.
  - assert (Hlen : length (timers (timeout_fires id w)) = length (timers w)).
    { unfold timeout_fires, clearInterval, timeout_done.
      repeat (case_match; simpl); rewrite ?length_insert; reflexivity. }
    split; [|lia]. intros j p. apply timeout_fires_winds_down.
Qed.

Lemma timers_only_wind_down_witness :
  exists p',
    timers (step (IntervalFired 0 (Ok Sample.completed)) Sample.running) !! 0
    = Some p'
    /\ winds_down Sample.poller p'.
Proof.
  apply (proj1 (timers_only_wind_down (IntervalFired 0 (Ok Sample.completed))
                  Sample.running) 0 Sample.poller).
  reflexivity.
Defined.

(** ** The order of the requests *)

Lemma clearInterval_origin id j p' w :
  timers (clearInterval id w) !! j = Some p' ->
  exists p, timers w !! j = Some p /\ poll_sessionId p' = poll_sessionId p.
Proof.
  unfold clearInterval. destruct (timers w !! id) as [q|] eqn:Hq; [|eauto].
  simpl. intros H. apply list_lookup_insert_Some in H.
  destruct H as [(-> & <- & _)|(_ & H)]; eauto.
Qed.

Lemma timeout_done_origin id j p' w :
  timers (timeout_done id w) !! j = Some p' ->
  exists p, timers w !! j = Some p /\ poll_sessionId p' = poll_sessionId p.
Proof.
  unfold timeout_done. destruct (timers w !! id) as [q|] eqn:Hq; [|eauto].
  simpl. intros H. apply list_lookup_insert_Some in H.
  destruct H as [(-> & <- & _)|(_ & H)]; eauto.
Qed.

Lemma snoc_split {A : Type} (l before after : list A) (e x : A) :
  l ++ [e] = before ++ x :: after ->
  after = [] /\ l = before /\ e = x
  \/ exists after', after = after' ++ [e] /\ l = before ++ x :: after'.
Proof.
  destruct (decide (after = [])) as [->|Hne].
  - intros H. apply app_inj_tail in H. auto.
  - destruct (exists_last Hne) as (after' & y & ->).
    intros H. right. exists after'.
    rewrite app_comm_cons, app_assoc in H. apply app_inj_tail in H.
    destruct H as [-> ->]. auto.
Qed.

Section PollsOnlyExecuted.
Variable w : World.
Hypothesis Hw : polls_only_executed w.

Lemma polls_setState f : polls_only_executed (setState f w).
Proof. exact Hw. Qed.

Lemma polls_perform e :
  is_status_request e = false -> polls_only_executed (perform e w).
Proof.
  destruct Hw as [Ht He]. intros Hne. split; simpl.
  - intros p Hp. apply elem_of_app. left. apply Ht, Hp.
  - intros before sid after Heq. apply snoc_split in Heq.
    destruct Heq as [(_ & _ & ->)|(after' & _ & Heq)]; [discriminate Hne|].
    eapply He, Heq.
Qed.

Lemma polls_perform_status sid :
  Fetch (ExecuteTestPlan sid) ∈ effects w ->
  polls_only_executed (perform (Fetch (GetSessionStatus sid)) w).
Proof.
  destruct Hw as [Ht He]. intros Hsid. split; simpl.
  - intros p Hp. apply elem_of_app. left. apply Ht, Hp.
  - intros before sid' after Heq. apply snoc_split in Heq.
    destruct Heq as [(_ & <- & [= <-])|(after' & _ & Heq)]; [exact Hsid|].
    eapply He, Heq.
Qed.

Lemma polls_pollExecutionStatus instruction sid :
  Fetch (ExecuteTestPlan sid) ∈ effects w ->
  polls_only_executed (pollExecutionStatus instruction sid w).
Proof.
  destruct Hw as [Ht He]. intros Hsid. split; simpl; [|exact He].
  intros p Hp. apply elem_of_app in Hp. destruct Hp as [Hp|Hp]; [auto|].
  apply list_elem_of_singleton in Hp. subst p. exact Hsid.
Qed.

Lemma polls_clearInterval id : polls_only_executed (clearInterval id w).
Proof.
  destruct Hw as [Ht He]. split; rewrite clearInterval_effects; [|exact He].
  intros p' Hp'. apply list_elem_of_lookup_1 in Hp'. destruct Hp' as [j Hj].
  destruct (clearInterval_origin id j p' w Hj) as (p & Hp & ->).
  apply Ht. eapply list_elem_of_lookup_2, Hp.
Qed.

Lemma polls_timeout_done id : polls_only_executed (timeout_done id w).
Proof.
  destruct Hw as [Ht He].
  assert (Heff : effects (timeout_done id w) = effects w).
  { unfold timeout_done. destruct (timers w !! id); reflexivity. }
  split; rewrite Heff; [|exact He].
  intros p' Hp'. apply list_elem_of_lookup_1 in Hp'. destruct Hp' as [j Hj].
  destruct (timeout_done_origin id j p' w Hj) as (p & Hp & ->).
  apply Ht. eapply list_elem_of_lookup_2, Hp.
Qed.
End PollsOnlyExecuted.

Lemma polls_proceedWithExecution instruction sessionId parseResult reply w :
  polls_only_executed w ->
  polls_only_executed
    (proceedWithExecution instruction sessionId parseResult reply w).
Proof.
  intros Hw. unfold proceedWithExecution.
  destruct (await_json _ reply).
  - do 2 apply polls_setState. apply polls_perform; [exact Hw | reflexivity].
  - apply polls_pollExecutionStatus.
    + apply polls_setState. apply polls_perform; [exact Hw | reflexivity].
    + simpl. apply elem_of_app. right. apply list_elem_of_singleton.
      reflexivity.
Qed.

Lemma polls_interval_fires id reply w :
  polls_only_executed w -> polls_only_executed (interval_fires id reply w).
Proof.
  intros Hw. unfold interval_fires.
  destruct (timers w !! id) as [p|] eqn:Hp; [|exact Hw].
  destruct (interval_live p); [|exact Hw].
  assert (Hsent : polls_only_executed
                    (perform (Fetch (GetSessionStatus (poll_sessionId p))) w)).
  { apply polls_perform_status; [exact Hw|].
    apply (proj1 Hw). eapply list_elem_of_lookup_2, Hp. }
  unfold poll_tick. destruct reply as [e|st|e|status].
  - apply polls_setState, polls_clearInterval, Hsent.
  - exact Hsent.
  - apply polls_setState, polls_clearInterval, Hsent.
  - destruct (_ || _); [|apply polls_setState, Hsent].
    destruct (Result.steps status).
    + apply polls_setState, polls_setState, polls_clearInterval,
        polls_setState, Hsent.
    + apply polls_setState, polls_clearInterval, polls_setState, Hsent.
Qed.

Lemma polls_step e w :
  polls_only_executed w -> polls_only_executed (step e w).
Proof.
  intros Hw.
  destruct e as [v|v|v|v|v| |index|index|pr er|cr er|sr er|id reply|id]; simpl.
  1-8: repeat case_match; repeat apply polls_setState; exact Hw.
  - destruct (execute_disabled (ui w)); [exact Hw|]. unfold executeTest.
    destruct (missing_required (ui w));
      [apply polls_perform; [exact Hw | reflexivity]|].
    assert (Hsent : polls_only_executed
      (w |> setState (setIsExecuting true) |> setState (setTestSession None)
         |> setState (setExecutionSteps [])
         |> setState (setShowClarification false)
         |> perform (Fetch (parse_request (ui w))))).
    { apply polls_perform; [|reflexivity].
      repeat apply polls_setState. exact Hw. }
    destruct (await_json _ pr); [repeat apply polls_setState; exact Hsent|].
    destruct (is_literal _ _); [repeat apply polls_setState; exact Hsent|].
    apply polls_proceedWithExecution, Hsent.
  - destruct (dialog_question (ui w)); [|exact Hw].
    destruct (_ || _); [exact Hw|]. unfold handleClarificationResponse.
    destruct (truthy _), (testSession (ui w)), (clarificationQuestion (ui w));
      try (apply polls_perform; [exact Hw | reflexivity]).
    destruct (await_json _ cr).
    + repeat apply polls_setState. apply polls_perform; [|reflexivity].
      apply polls_setState, Hw.
    + apply polls_proceedWithExecution. unfold clarification_resolved.
      repeat apply polls_setState. apply polls_perform; [|reflexivity].
      apply polls_setState, Hw.
  - destruct (dialog_question (ui w)); [|exact Hw].
    destruct (isExecuting (ui w)); [exact Hw|]. unfold skipClarification.
    destruct (testSession (ui w)); [|exact Hw].
    destruct (await_json _ sr).
    + repeat apply polls_setState. apply polls_perform; [|reflexivity].
      apply polls_setState, Hw.
    + apply polls_proceedWithExecution. unfold skip_resolved.
      repeat apply polls_setState. apply polls_perform; [|reflexivity].
      apply polls_setState, Hw.
  - apply polls_interval_fires, Hw.
  - unfold timeout_fires. destruct (timers w !! id) as [p|]; [|exact Hw].
    destruct (timeout_pending p); [|exact Hw].
    apply polls_setState, polls_clearInterval, polls_timeout_done, Hw.
Qed.

(** X14.  The client never asks for the status of a session it has not asked
    to execute: whatever the user does and whatever the service replies,
    every status request in the log comes after an execute request for the
    same session id, and every poller registered is for a session id an
    execute request has been issued for. *)
Theorem status_requests_follow_execute_requests (events : list Event) :
  polls_only_executed (run events initialWorld).
Proof.
  assert (Hrun : forall w, polls_only_executed w ->
                           polls_only_executed (run events w)).
  { induction events as [|e events IH]; intros w Hw; [exact Hw|].
    change (run (e :: events) w) with (run events (step e w)).
    apply IH, polls_step, Hw. }
  apply Hrun. split.
  - intros p Hp. inversion Hp.
  - intros before sid after Heq. destruct before; discriminate Heq.
Qed.

(** ** What the rendered controls can reach *)

Lemma invariant_grows w w' new session :
  effects w' = effects w ++ new -> new <> [] ->
  Forall (fun e => is_alert e = false) new ->
  testSession (ui w') = Some session ->
  rendered_invariant w -> rendered_invariant w'.
Proof.
  intros Heff Hnew Hquiet Hs (_ & Hno & _ & _).
  split; [|split; [|split]].
  - rewrite Hs. discriminate.
  - rewrite Heff. apply Forall_app. auto.
  - rewrite Hs, Heff. split; [discriminate|].
    intros H. apply app_eq_nil in H. destruct H as [_ H]. contradiction.
  - rewrite Hs. discriminate.
Qed.

Lemma invariant_stays w w' :
  effects w' = effects w ->
  testSession (ui w') = testSession (ui w) ->
  (showClarification (ui w') = true -> showClarification (ui w) = true) ->
  (timers w = [] -> timers w' = []) ->
  rendered_invariant w -> rendered_invariant w'.
Proof.
  intros Heff Hs Hshow Ht (H1 & H2 & H3 & H4).
  unfold rendered_invariant. rewrite Heff, Hs.
  split; [auto|]. split; [exact H2|]. split; [exact H3|auto].
Qed.

Lemma proceedWithExecution_stores instruction sessionId parseResult reply w :
  exists session,
    testSession (ui (proceedWithExecution instruction sessionId parseResult reply w))
    = Some session.
Proof.
  unfold proceedWithExecution. destruct (await_json _ reply); simpl; eauto.
Qed.

Lemma executeTest_grows parseReply executeReply w :
  missing_required (ui w) = false ->
  exists new session,
    effects (executeTest parseReply executeReply w) = effects w ++ new
    /\ new <> []
    /\ Forall (fun e => is_alert e = false) new
    /\ testSession (ui (executeTest parseReply executeReply w)) = Some session.
Proof.
  intros Hm.
  destruct (executeTest_effects parseReply executeReply w Hm) as (rest & He & Hrest).
  assert (Hs : exists session,
    testSession (ui (executeTest parseReply executeReply w)) = Some session).
  { unfold executeTest. rewrite Hm.
    destruct (await_json _ parseReply); [simpl; eauto|].
    destruct (is_literal _ _); [simpl; eauto|].
    apply proceedWithExecution_stores. }
  destruct Hs as [session Hs].
  exists (Fetch (parse_request (ui w)) :: rest), session.
  split; [exact He|]. split; [discriminate|]. split; [|exact Hs].
  constructor; [reflexivity|].
  eapply Forall_impl; [exact Hrest|].
  intros [m|[]] H; simpl in *; congruence.
Qed.

Lemma handleClarificationResponse_grows clarificationReply executeReply w
    session question :
  selectedOption (ui w) <> [] ->
  testSession (ui w) = Some session ->
  clarificationQuestion (ui w) = Some question ->
  exists new session',
    effects (handleClarificationResponse clarificationReply executeReply w)
    = effects w ++ new
    /\ new <> []
    /\ Forall (fun e => is_alert e = false) new
    /\ testSession
         (ui (handleClarificationResponse clarificationReply executeReply w))
       = Some session'.
Proof.
  intros Hsel Hs Hq. apply truthy_true_iff in Hsel.
  unfold handleClarificationResponse. rewrite Hsel, Hs, Hq.
  destruct (await_json _ clarificationReply) as [error|result].
  - eexists [_], _. simpl. unfold updateTestSession. simpl. rewrite Hs.
    split; [reflexivity|]. split; [discriminate|].
    split; [repeat constructor | reflexivity].
  - destruct (proceedWithExecution_stores (instruction (ui w))
                (TestSession.sessionId session) result executeReply
                (clarification_resolved result
                   (w |> setState (setIsExecuting true)
                      |> perform (Fetch (ProvideClarification
                           (TestSession.sessionId session)
                           (ClarificationQuestion.type question)
                           (selectedOption (ui w))))))) as [session' Hs'].
    eexists [_; _], session'. rewrite proceedWithExecution_effects. simpl.
    rewrite <- app_assoc.
    split; [reflexivity|]. split; [discriminate|].
    split; [repeat constructor | exact Hs'].
Qed.

Lemma skipClarification_grows skipReply executeReply w session :
  testSession (ui w) = Some session ->
  exists new session',
    effects (skipClarification skipReply executeReply w) = effects w ++ new
    /\ new <> []
    /\ Forall (fun e => is_alert e = false) new
    /\ testSession (ui (skipClarification skipReply executeReply w))
       = Some session'.
Proof.
  intros Hs. unfold skipClarification. rewrite Hs.
  destruct (await_json _ skipReply) as [error|result].
  - eexists [_], _. simpl. unfold updateTestSession. simpl. rewrite Hs.
    split; [reflexivity|]. split; [discriminate|].
    split; [repeat constructor | reflexivity].
  - destruct (proceedWithExecution_stores (instruction (ui w))
                (TestSession.sessionId session) result executeReply
                (skip_resolved result
                   (w |> setState (setIsExecuting true)
                      |> perform (Fetch (SkipClarification
                           (TestSession.sessionId session)))))) as [session' Hs'].
    eexists [_; _], session'. rewrite proceedWithExecution_effects. simpl.
    rewrite <- app_assoc.
    split; [reflexivity|]. split; [discriminate|].
    split; [repeat constructor | exact Hs'].
Qed.

Lemma interval_fires_stores id p reply session w :
  timers w !! id = Some p -> interval_live p = true ->
  testSession (ui w) = Some session ->
  exists session',
    testSession (ui (interval_fires id reply w)) = Some session'.
Proof.
  intros H Hl Hs. unfold interval_fires. rewrite H, Hl. unfold poll_tick.
  destruct reply as [e|st|e|status]; simpl; rewrite ?clearInterval_ui; simpl;
    eauto.
  destruct (_ || _); [destruct (Result.steps status)|]; simpl;
    rewrite ?clearInterval_ui; simpl; eauto.
Qed.

Lemma invariant_step e w : rendered_invariant w -> rendered_invariant (step e w).
Proof.
  intros Hw.
  destruct e as [v|v|v|v|v| |index|index|pr er|cr er|sr er|id reply|id]; simpl.
  1-8: repeat case_match; (exact Hw || (revert Hw; apply invariant_stays; auto)).
  - unfold execute_disabled.
    destruct (isExecuting (ui w)); [exact Hw|]. simpl.
    destruct (missing_required (ui w)) eqn:Hm; [exact Hw|].
    destruct (executeTest_grows pr er w Hm) as (new & session & He & Hn & Hq & Hs).
    exact (invariant_grows w _ new session He Hn Hq Hs Hw).
  - unfold dialog_question.
    destruct (showClarification (ui w)) eqn:Hshow; [|exact Hw].
    destruct (clarificationQuestion (ui w)) as [question|] eqn:Hq; [|exact Hw].
    destruct (truthy (selectedOption (ui w))) eqn:Hsel; [|exact Hw]. simpl.
    destruct (isExecuting (ui w)); [exact Hw|].
    destruct (testSession (ui w)) as [session|] eqn:Hs;
      [|destruct (proj1 Hw Hshow Hs)].
    apply truthy_true_iff in Hsel.
    destruct (handleClarificationResponse_grows cr er w session question
                Hsel Hs Hq) as (new & session' & He & Hn & Hquiet & Hs').
    exact (invariant_grows w _ new session' He Hn Hquiet Hs' Hw).
  - unfold dialog_question.
    destruct (showClarification (ui w)) eqn:Hshow; [|exact Hw].
    destruct (clarificationQuestion (ui w)) as [question|]; [|exact Hw].
    destruct (isExecuting (ui w)); [exact Hw|].
    destruct (testSession (ui w)) as [session|] eqn:Hs;
      [|destruct (proj1 Hw Hshow Hs)].
    destruct (skipClarification_grows sr er w session Hs)
      as (new & session' & He & Hn & Hquiet & Hs').
    exact (invariant_grows w _ new session' He Hn Hquiet Hs' Hw).
  - destruct (timers w !! id) as [p|] eqn:H;
      [|unfold interval_fires; rewrite H; exact Hw].
    destruct (interval_live p) eqn:Hl;
      [|unfold interval_fires; rewrite H, Hl; exact Hw].
    destruct (testSession (ui w)) as [session|] eqn:Hs.
    + destruct (interval_fires_stores id p reply session w H Hl Hs)
        as [session' Hs'].
      apply (invariant_grows w _ [Fetch (GetSessionStatus (poll_sessionId p))]
               session' (interval_fires_effects id p reply w H Hl));
        [discriminate | repeat constructor | exact Hs' | exact Hw].
    + destruct Hw as (_ & _ & _ & Ht). rewrite (Ht Hs) in H. discriminate H.
  - revert Hw. apply invariant_stays.
    + apply timeout_fires_effects.
    + unfold timeout_fires. repeat case_match; simpl;
        rewrite ?clearInterval_ui, ?timeout_done_ui; reflexivity.
    + unfold timeout_fires. repeat case_match; simpl;
        rewrite ?clearInterval_ui, ?timeout_done_ui; auto.
    + intros Ht. unfold timeout_fires. rewrite Ht.
      rewrite lookup_nil. exact Ht.
Qed.

Lemma invariant_run events w :
  rendered_invariant w -> rendered_invariant (run events w).
Proof.
  revert w. induction events as [|e events IH]; intros w Hw; [exact Hw|].
  change (run (e :: events) w) with (run events (step e w)).
  apply IH, invariant_step, Hw.
Qed.

Lemma invariant_initial : rendered_invariant initialWorld.
Proof.
  split; [discriminate|]. split; [constructor|]. split; [|reflexivity].
  split; reflexivity.
Qed.

(** X15.  Through the rendered controls neither alert is ever raised: the
    buttons are disabled, or the dialog is not shown, in every state in
    which a handler would raise one. *)
Theorem alerts_are_unreachable (events : list Event) :
  Forall (fun e => is_alert e = false) (effects (run events initialWorld)).
Proof.
  apply (invariant_run events initialWorld invariant_initial).
Qed.

(** ** Presentation *)

Lemma replaceFirst_length pattern replacement s :
  length (replaceFirst pattern replacement s) = length s.
Proof.
  induction s as [|c rest IH]; simpl; [reflexivity|].
  destruct (c =? pattern)%N; simpl; congruence.
Qed.

Lemma replaceFirst_absent pattern replacement s :
  pattern ∉ s -> replaceFirst pattern replacement s = s.
Proof.
  induction s as [|c rest IH]; simpl; [reflexivity|].
  intros H. apply not_elem_of_cons in H. destruct H as [Hne H].
  destruct (N.eqb_spec c pattern) as [->|_]; [contradiction|].
  rewrite IH by exact H. reflexivity.
Qed.

Lemma replaceFirst_first pattern replacement before after :
  pattern ∉ before ->
  replaceFirst pattern replacement (before ++ pattern :: after)
  = before ++ replacement :: after.
Proof.
  induction before as [|c rest IH]; simpl.
  - intros _. rewrite N.eqb_refl. reflexivity.
  - intros H. apply not_elem_of_cons in H. destruct H as [Hne H].
    destruct (N.eqb_spec c pattern) as [->|_]; [contradiction|].
    rewrite IH by exact H. reflexivity.
Qed.

(** X17.  The label shown for a status or a workflow has the first
    underscore of the name turned into a space, and only the first: the name
    up to it and everything after it, later underscores included, are shown
    as they are, and a name without underscore is shown unchanged. *)
Theorem display_label_replaces_first_underscore (s : jsstring) :
  length (display_label s) = length s
  /\ (0x5F%N ∉ s -> display_label s = s)
  /\ (forall before after,
        0x5F%N ∉ before -> s = before ++ 0x5F%N :: after ->
        display_label s = before ++ 0x20%N :: after).
Proof.
  unfold display_label. split; [|split].
  - apply replaceFirst_length.
  - apply replaceFirst_absent.
  - intros before after H ->. apply replaceFirst_first, H.
Qed.

Lemma display_label_replaces_first_underscore_witness :
  display_label (lit "create_l3vn_fabric") = lit "create l3vn_fabric"
  /\ display_label (lit "completed") = lit "completed".
Proof.
  destruct (display_label_replaces_first_underscore (lit "create_l3vn_fabric"))
    as (_ & _ & Hfirst).
  destruct (display_label_replaces_first_underscore (lit "completed"))
    as (_ & Hnone & _).
  split.
  - apply (Hfirst (lit "create") (lit "l3vn_fabric")); [|reflexivity].
    apply (bool_decide_unpack _). exact I.
  - apply Hnone. apply (bool_decide_unpack _). exact I.
Defined.

(** X18.  The colour and the icon of a status go together: green with the
    check mark, red with the cross, orange with the question mark, and the
    spinning clock always on blue. The one status that is blue without the
    spinning clock is [parsing], which is drawn with the grey resting clock
    of an unknown status. *)
Theorem status_colour_matches_icon (status : jsstring) :
  (getStatusColor status = lit "bg-green-50 border-green-200 text-green-800"
   <-> icon (getStatusIcon status) = CheckCircle)
  /\ (getStatusColor status = lit "bg-red-50 border-red-200 text-red-800"
      <-> icon (getStatusIcon status) = XCircle)
  /\ (getStatusColor status = lit "bg-orange-50 border-orange-200 text-orange-800"
      <-> icon (getStatusIcon status) = HelpCircle)
  /\ (getStatusIcon status
      = mkIcon Clock (lit "w-5 h-5 text-blue-500 animate-spin") ->
      getStatusColor status = lit "bg-blue-50 border-blue-200 text-blue-800")
  /\ (getStatusColor status = lit "bg-blue-50 border-blue-200 text-blue-800"
      /\ getStatusIcon status = mkIcon Clock (lit "w-5 h-5 text-gray-500")
      <-> status = lit "parsing").
Proof.
  unfold getStatusColor, getStatusIcon.
  repeat case_bool_decide; subst; simpl;
    try discriminate;
    repeat split; intros; try reflexivity; try discriminate; try tauto;
    try (destruct_and?; discriminate).
Qed.

Lemma status_colour_matches_icon_witness :
  getStatusColor (lit "parsing") = lit "bg-blue-50 border-blue-200 text-blue-800"
  /\ getStatusIcon (lit "parsing") = mkIcon Clock (lit "w-5 h-5 text-gray-500").
Proof.
  destruct (status_colour_matches_icon (lit "parsing")) as (_ & _ & _ & _ & H).
  apply (proj2 H). reflexivity.
Defined.
